(** * Event Horizon: the aggregate base and its test aggregates

    A shallow embedding of [aggregatebase.go] and of the test fixtures of
    [eventhorizon_test.go] (package [eventhorizon]).  Methods with a pointer
    receiver are state transformers on the receiver; interface values are
    inductive types whose constructors are the dynamic types that occur. *)

From Stdlib Require Import ZArith String Ascii List Lia DecimalString.
From stdpp Require Import base gmap strings list.

Local Open Scope Z_scope.
Local Open Scope string_scope.

(** ** Go's [int] *)

(** [int] is the 64-bit signed integer of the platforms the package is built
    for; arithmetic wraps around silently. *)
Module GoInt.

Definition bits : Z := 64.
Definition min_int : Z := - 2 ^ 63.
Definition max_int : Z := 2 ^ 63 - 1.

Definition in_range (z : Z) : Prop := min_int <= z <= max_int.

(** Two's complement reduction of a mathematical integer. *)
Definition wrap (z : Z) : Z := (z + 2 ^ 63) mod 2 ^ bits - 2 ^ 63.

(** [a + b] on [int]. *)
Definition add (a b : Z) : Z := wrap (a + b).

(** [x++] on an [int] variable. *)
Definition incr (x : Z) : Z := add x 1.

(** [%d] of [fmt.Sprintf]: a minus sign for negative values, no padding. *)
Definition format_d (z : Z) : string := NilZero.string_of_int (Z.to_int z).

End GoInt.

(** ** A state monad for methods with a pointer receiver *)

Definition Method (S A : Type) : Type := S -> A * S.

Definition ret {S A : Type} (x : A) : Method S A := fun s => (x, s).

Definition bind {S A B : Type} (m : Method S A) (k : A -> Method S B)
  : Method S B :=
  fun s => let (x, s') := m s in k x s'.

Definition gets {S A : Type} (f : S -> A) : Method S A := fun s => (f s, s).

Definition modify {S : Type} (f : S -> S) : Method S unit := fun s => (tt, f s).

(** The receiver after the call, and the value the call returns. *)
Definition after {S A : Type} (m : Method S A) (s : S) : S := snd (m s).
Definition result {S A : Type} (m : Method S A) (s : S) : A := fst (m s).

Notation "x <- c1 ;; c2" := (bind c1 (fun x => c2))
  (at level 100, c1 at next level, right associativity).
Notation "c1 ;; c2" := (bind c1 (fun _ => c2))
  (at level 100, right associativity).

(** ** Identifiers, payloads, errors *)

Definition AggregateType : Type := string.
Definition EventType : Type := string.
Definition CommandType : Type := string.

(** Modelled from the spec: the declaration of [UUID] is not part of the
    sources read here.  The spec calls it an opaque identifier of an aggregate
    instance; it is kept as its textual form, whose zero value is empty. *)
Definition UUID : Type := string.

(** An instant of [time.Time], counted in nanoseconds from the zero instant
    (January 1, year 1, 00:00:00 UTC); [IsZero] recognises that instant. *)
Definition Time : Type := Z.
Definition IsZero (t : Time) : bool := Z.eqb t 0.

(** The dynamic types of the [EventData] values of the tests.  Each one is a
    pointer to a struct; a value stands for its pointee. *)
Inductive EventDataType : Type :=
  | TTestEventData
  | TTestEvent2Data
  | TTestEventRegister
  | TTestEventRegisterEmpty
  | TTestEventRegisterTwice.

(** The [EventData] interface: [nil], or a pointer to one of the structs. *)
Inductive EventData : Type :=
  | nilEventData
  | TestEventData (Content : string)
  | TestEvent2Data (Content : string)
  | TestEventRegister
  | TestEventRegisterEmpty
  | TestEventRegisterTwice.

(** The error values: the package's sentinel, and [errors.New msg]. *)
Inductive error : Type :=
  | ErrEventDataNotRegistered
  | errors_New (msg : string).

(** ** Events *)

Module event.

(** The struct [event], with the fields [AggregateBase.NewEvent] assigns and
    the ones the spec lists for an event. *)
Record t : Type := mk {
  eventType : EventType;
  data : EventData;
  timestamp : Time;
  aggregateType : AggregateType;
  aggregateID : UUID;
  version : Z
}.

Definition EventType (e : t) : EventType := eventType e.
Definition Data (e : t) : EventData := data e.
Definition Timestamp (e : t) : Time := timestamp e.
Definition AggregateType (e : t) : AggregateType := aggregateType e.
Definition AggregateID (e : t) : UUID := aggregateID e.
Definition Version (e : t) : Z := version e.

(** Modelled from the spec: [String] is declared with the struct, outside the
    sources read here; the spec has it render as ["<type>@<version>"]. *)
Definition String (e : t) : string :=
  eventType e +:+ "@" +:+ GoInt.format_d (version e).

End event.

(** What an implementation of [Event] other than [event] lets one observe. *)
Record foreignEvent : Type := mkForeign {
  f_eventType : EventType;
  f_data : EventData;
  f_timestamp : Time;
  f_aggregateType : AggregateType;
  f_aggregateID : UUID;
  f_version : Z
}.

(** The [Event] interface: [nil], a value of the struct [event], or a value
    of some other implementation. *)
Inductive Event : Type :=
  | nilEvent
  | EventOf (e : event.t)
  | EventOther (o : foreignEvent).

(** Modelled from the spec: the package-level constructor [NewEvent] is not
    part of the sources read here.  The spec has it stamp the current
    timestamp, set the version to 0 and leave the aggregate linkage unset;
    [now] is what the clock reads when it is called. *)
Definition NewEvent (now : Time) (eventType : EventType) (data : EventData)
  : Event :=
  EventOf {| event.eventType := eventType;
             event.data := data;
             event.timestamp := now;
             event.aggregateType := "";
             event.aggregateID := "";
             event.version := 0 |}.

(** ** AggregateBase *)

Module AggregateBase.

Record t : Type := mk {
  aggregateType : AggregateType;
  id : UUID;
  version : Z;
  uncommittedEvents : list Event
}.

Definition NewAggregateBase (aggregateType : AggregateType) (id : UUID) : t :=
  {| aggregateType := aggregateType;
     id := id;
     version := 0;
     uncommittedEvents := [] |}.

Definition AggregateType : Method t AggregateType := gets aggregateType.

Definition AggregateID : Method t UUID := gets id.

Definition Version : Method t Z := gets version.

Definition IncrementVersion : Method t unit :=
  modify (fun a => {| aggregateType := aggregateType a;
                      id := id a;
                      version := GoInt.incr (version a);
                      uncommittedEvents := uncommittedEvents a |}).

(** The type assertion [e.(event)] succeeds on [EventOf] only; the fields are
    assigned on the copy it yields, and the copy is returned. *)
Definition NewEvent (now : Time) (eventType : EventType) (data : EventData)
  : Method t Event :=
  match NewEvent now eventType data with
  | EventOf e =>
      ty <- gets aggregateType ;;
      i <- gets id ;;
      v <- Version ;;
      ret (EventOf {| event.eventType := event.eventType e;
                      event.data := event.data e;
                      event.timestamp := event.timestamp e;
                      event.aggregateType := ty;
                      event.aggregateID := i;
                      event.version := GoInt.add v 1 |})
  | e => ret e
  end.

Definition StoreEvent (event : Event) : Method t unit :=
  modify (fun a => {| aggregateType := aggregateType a;
                      id := id a;
                      version := version a;
                      uncommittedEvents := uncommittedEvents a ++ [event] |}).

Definition UncommittedEvents : Method t (list Event) := gets uncommittedEvents.

Definition ClearUncommittedEvents : Method t unit :=
  modify (fun a => {| aggregateType := aggregateType a;
                      id := id a;
                      version := version a;
                      uncommittedEvents := [] |}).

End AggregateBase.

(** ** Calls that may panic *)

(** What a call leaves behind: it returns, or it panics. *)
Inductive outcome (A : Type) : Type :=
  | Returns (x : A)
  | Panics (p : string).
Arguments Returns {A} x.
Arguments Panics {A} p.

(** The run-time panic of a field read or a method call through a nil
    pointer or a nil interface. *)
Definition panicNilDereference : string :=
  "runtime error: invalid memory address or nil pointer dereference".

(** ** The fixtures of the tests *)

Definition TestAggregateType : AggregateType := "TestAggregate".
Definition TestAggregate2Type : AggregateType := "TestAggregate2".

Definition TestEventType : EventType := "TestEvent".
Definition TestEvent2Type : EventType := "TestEvent2".

Definition TestCommandType : CommandType := "TestCommand".
Definition TestCommand2Type : CommandType := "TestCommand2".

Record TestCommand : Type := mkTestCommand {
  TestID : UUID;
  Content : string
}.

Record TestCommand2 : Type := mkTestCommand2 {
  TestID2 : UUID;
  Content2 : string
}.

(** The [Command] interface.  Both structs implement it through value
    receivers, so a struct and a pointer to it are commands alike; the type
    switches of [HandleCommand] tell them apart.  A pointer that is not nil
    stands for its pointee; [NilPtrTestCommand] and [NilPtrTestCommand2] are
    the nil pointers of the two pointer types, held in an interface value
    that is itself not nil. *)
Inductive Command : Type :=
  | nilCommand
  | PtrTestCommand (c : TestCommand)
  | PtrTestCommand2 (c : TestCommand2)
  | ValTestCommand (c : TestCommand)
  | ValTestCommand2 (c : TestCommand2)
  | NilPtrTestCommand
  | NilPtrTestCommand2.

(** A struct that embeds [*AggregateBase] owns the base it points to: the
    constructors below allocate it and hand the pointer to nobody else, so
    the base is kept as a field.  [onBase] runs a promoted method. *)
Module TestAggregate.

Record t : Type := mk {
  base : AggregateBase.t;
  dispatchedCommand : Command;
  appliedEvent : Event;
  numHandled : Z
}.

Definition onBase {A : Type} (m : Method AggregateBase.t A) : Method t A :=
  fun a => let (x, b) := m (base a) in
           (x, {| base := b;
                  dispatchedCommand := dispatchedCommand a;
                  appliedEvent := appliedEvent a;
                  numHandled := numHandled a |}).

Definition NewTestAggregate (id : UUID) : t :=
  {| base := AggregateBase.NewAggregateBase TestAggregateType id;
     dispatchedCommand := nilCommand;
     appliedEvent := nilEvent;
     numHandled := 0 |}.

Definition set_dispatchedCommand (command : Command) : Method t unit :=
  modify (fun a => {| base := base a;
                      dispatchedCommand := command;
                      appliedEvent := appliedEvent a;
                      numHandled := numHandled a |}).

Definition incr_numHandled : Method t unit :=
  modify (fun a => {| base := base a;
                      dispatchedCommand := dispatchedCommand a;
                      appliedEvent := appliedEvent a;
                      numHandled := GoInt.incr (numHandled a) |}).

Definition set_appliedEvent (event : Event) : Method t unit :=
  modify (fun a => {| base := base a;
                      dispatchedCommand := dispatchedCommand a;
                      appliedEvent := event;
                      numHandled := numHandled a |}).

(** [now] is what the clock reads when the event is created.  The case
    [*TestCommand] of the type switch also takes the nil pointer of that
    type, and reading [Content] through it panics. *)
Definition HandleCommand (now : Time) (command : Command)
  : Method t (outcome (option error)) :=
  set_dispatchedCommand command ;;
  incr_numHandled ;;
  match command with
  | PtrTestCommand command =>
      if String.eqb (Content command) "error"
      then ret (Returns (Some (errors_New "command error")))
      else
        e <- onBase (AggregateBase.NewEvent now TestEventType
                       (TestEventData (Content command))) ;;
        onBase (AggregateBase.StoreEvent e) ;;
        ret (Returns None)
  | NilPtrTestCommand => ret (Panics panicNilDereference)
  | _ => ret (Returns (Some (errors_New "couldn't handle command")))
  end.

(** The deferred call runs when the body has finished. *)
Definition ApplyEvent (event : Event) : Method t unit :=
  set_appliedEvent event ;;
  onBase AggregateBase.IncrementVersion.

End TestAggregate.

Module TestAggregate2.

Record t : Type := mk {
  base : AggregateBase.t;
  dispatchedCommand : Command;
  appliedEvent : Event;
  numHandled : Z
}.

Definition onBase {A : Type} (m : Method AggregateBase.t A) : Method t A :=
  fun a => let (x, b) := m (base a) in
           (x, {| base := b;
                  dispatchedCommand := dispatchedCommand a;
                  appliedEvent := appliedEvent a;
                  numHandled := numHandled a |}).

Definition NewTestAggregate2 (id : UUID) : t :=
  {| base := AggregateBase.NewAggregateBase TestAggregate2Type id;
     dispatchedCommand := nilCommand;
     appliedEvent := nilEvent;
     numHandled := 0 |}.

Definition set_dispatchedCommand (command : Command) : Method t unit :=
  modify (fun a => {| base := base a;
                      dispatchedCommand := command;
                      appliedEvent := appliedEvent a;
                      numHandled := numHandled a |}).

Definition incr_numHandled : Method t unit :=
  modify (fun a => {| base := base a;
                      dispatchedCommand := dispatchedCommand a;
                      appliedEvent := appliedEvent a;
                      numHandled := GoInt.incr (numHandled a) |}).

Definition set_appliedEvent (event : Event) : Method t unit :=
  modify (fun a => {| base := base a;
                      dispatchedCommand := dispatchedCommand a;
                      appliedEvent := event;
                      numHandled := numHandled a |}).

(** As above, with the nil pointer of [*TestCommand2]. *)
Definition HandleCommand (now : Time) (command : Command)
  : Method t (outcome (option error)) :=
  set_dispatchedCommand command ;;
  incr_numHandled ;;
  match command with
  | PtrTestCommand2 command =>
      if String.eqb (Content2 command) "error"
      then ret (Returns (Some (errors_New "command error")))
      else
        e <- onBase (AggregateBase.NewEvent now TestEventType
                       (TestEvent2Data (Content2 command))) ;;
        onBase (AggregateBase.StoreEvent e) ;;
        ret (Returns None)
  | NilPtrTestCommand2 => ret (Panics panicNilDereference)
  | _ => ret (Returns (Some (errors_New "couldn't handle command")))
  end.

(** No call of [IncrementVersion] here. *)
Definition ApplyEvent (event : Event) : Method t unit :=
  set_appliedEvent event.

End TestAggregate2.

(** ** The Aggregate interface *)

(** The methods of [Aggregate] that the properties below speak of, for a
    receiver of type [A]. *)
Class Aggregate (A : Type) : Type := {
  agg_Version : Method A Z;
  agg_NewEvent : Time -> EventType -> EventData -> Method A Event;
  agg_StoreEvent : Event -> Method A unit;
  agg_UncommittedEvents : Method A (list Event);
  agg_HandleCommand : Time -> Command -> Method A (outcome (option error));
  agg_ApplyEvent : Event -> Method A unit
}.

#[global] Instance TestAggregate_Aggregate : Aggregate TestAggregate.t := {|
  agg_Version := TestAggregate.onBase AggregateBase.Version;
  agg_NewEvent := fun now ty d =>
    TestAggregate.onBase (AggregateBase.NewEvent now ty d);
  agg_StoreEvent := fun e => TestAggregate.onBase (AggregateBase.StoreEvent e);
  agg_UncommittedEvents := TestAggregate.onBase AggregateBase.UncommittedEvents;
  agg_HandleCommand := TestAggregate.HandleCommand;
  agg_ApplyEvent := TestAggregate.ApplyEvent
|}.

#[global] Instance TestAggregate2_Aggregate : Aggregate TestAggregate2.t := {|
  agg_Version := TestAggregate2.onBase AggregateBase.Version;
  agg_NewEvent := fun now ty d =>
    TestAggregate2.onBase (AggregateBase.NewEvent now ty d);
  agg_StoreEvent := fun e => TestAggregate2.onBase (AggregateBase.StoreEvent e);
  agg_UncommittedEvents := TestAggregate2.onBase AggregateBase.UncommittedEvents;
  agg_HandleCommand := TestAggregate2.HandleCommand;
  agg_ApplyEvent := TestAggregate2.ApplyEvent
|}.

(** [ApplyEvent] called on each event of a stream in turn. *)
Fixpoint applyAll {A : Type} `{Aggregate A} (events : list Event)
  : Method A unit :=
  match events with
  | [] => ret tt
  | e :: rest => agg_ApplyEvent e ;; applyAll rest
  end.

(** ** The registry of event data constructors *)

Definition dquote : string := String "034"%char EmptyString.

(** [%q] on a name that needs no escape: the name between double quotes. *)
Definition format_q (s : string) : string := dquote +:+ s +:+ dquote.

(** The values the tests recover from the two panics. *)
Definition panicEmptyEventType : string :=
  "eventhorizon: attempt to register empty event type".
Definition panicDuplicateEventType (eventType : EventType) : string :=
  "eventhorizon: registering duplicate types for " +:+ format_q eventType.

(** The zero value a constructor [func() EventData { return &T{} }] builds. *)
Definition zeroValue (T : EventDataType) : EventData :=
  match T with
  | TTestEventData => TestEventData ""
  | TTestEvent2Data => TestEvent2Data ""
  | TTestEventRegister => TestEventRegister
  | TTestEventRegisterEmpty => TestEventRegisterEmpty
  | TTestEventRegisterTwice => TestEventRegisterTwice
  end.

(** The dynamic type of an [EventData] value, as a type assertion sees it. *)
Definition typeOf (d : EventData) : option EventDataType :=
  match d with
  | nilEventData => None
  | TestEventData _ => Some TTestEventData
  | TestEvent2Data _ => Some TTestEvent2Data
  | TestEventRegister => Some TTestEventRegister
  | TestEventRegisterEmpty => Some TTestEventRegisterEmpty
  | TestEventRegisterTwice => Some TTestEventRegisterTwice
  end.

(** A constructor of the concrete type [T]: every call builds its zero value. *)
Definition constructs (T : EventDataType) (factory : unit -> EventData) : Prop :=
  factory tt = zeroValue T.

(** Modelled from the spec: [RegisterEventData] is not part of the sources
    read here, only its tests are.  The spec has the registry map an event
    type to a constructor of payloads, and registration fail (a panic, with
    the values the tests recover) on the empty type and on a type that is
    registered already; entries are never removed. *)
Definition RegisterEventData (eventType : EventType)
    (factory : unit -> EventData)
  : Method (gmap string (unit -> EventData)) (outcome unit) :=
  fun factories =>
    if String.eqb eventType ""
    then (Panics panicEmptyEventType, factories)
    else match factories !! eventType with
         | Some _ => (Panics (panicDuplicateEventType eventType), factories)
         | None => (Returns tt, <[eventType := factory]> factories)
         end.

(** Modelled from the spec: [CreateEventData] is not part of the sources read
    here, only its test is.  The spec has it return a payload built by the
    registered constructor, or signal that the type is not registered. *)
Definition CreateEventData (eventType : EventType)
  : Method (gmap string (unit -> EventData)) (EventData * option error) :=
  fun factories =>
    match factories !! eventType with
    | Some factory => ((factory tt, None), factories)
    | None => ((nilEventData, Some ErrEventDataNotRegistered), factories)
    end.

(** The event data registrations of [init], in the order they are made (the
    two calls of [RegisterAggregate] before them touch another registry). *)
Definition init : Method (gmap string (unit -> EventData)) unit :=
  RegisterEventData TestEventType (fun _ => TestEventData "") ;;
  RegisterEventData TestEvent2Type (fun _ => TestEvent2Data "") ;;
  ret tt.

(** The registries a process can hold: the empty one, and what a call of
    [RegisterEventData] leaves. *)
Inductive registered : gmap string (unit -> EventData) -> Prop :=
  | registered_empty : registered ∅
  | registered_call factories eventType factory :
      registered factories ->
      registered (after (RegisterEventData eventType factory) factories).

(** ** Calls on an AggregateBase other than IncrementVersion *)

Inductive call : Type :=
  | CallAggregateType
  | CallAggregateID
  | CallVersion
  | CallNewEvent (now : Time) (eventType : EventType) (data : EventData)
  | CallStoreEvent (event : Event)
  | CallUncommittedEvents
  | CallClearUncommittedEvents.

Definition perform (c : call) : Method AggregateBase.t unit :=
  match c with
  | CallAggregateType => AggregateBase.AggregateType ;; ret tt
  | CallAggregateID => AggregateBase.AggregateID ;; ret tt
  | CallVersion => AggregateBase.Version ;; ret tt
  | CallNewEvent now eventType data =>
      AggregateBase.NewEvent now eventType data ;; ret tt
  | CallStoreEvent event => AggregateBase.StoreEvent event
  | CallUncommittedEvents => AggregateBase.UncommittedEvents ;; ret tt
  | CallClearUncommittedEvents => AggregateBase.ClearUncommittedEvents
  end.

Fixpoint performAll (cs : list call) : Method AggregateBase.t unit :=
  match cs with
  | [] => ret tt
  | c :: rest => perform c ;; performAll rest
  end.

(** The commands each test aggregate turns down: it stores no event for
    them and does not return nil. *)
Definition rejects (c : Command) : bool :=
  match c with
  | PtrTestCommand c => String.eqb (Content c) "error"
  | _ => true
  end.

Definition rejects2 (c : Command) : bool :=
  match c with
  | PtrTestCommand2 c => String.eqb (Content2 c) "error"
  | _ => true
  end.

(** Among them, the command on which each test aggregate panics: the nil
    pointer of the type its switch has a case for. *)
Definition panics (c : Command) : bool :=
  match c with
  | NilPtrTestCommand => true
  | _ => false
  end.

Definition panics2 (c : Command) : bool :=
  match c with
  | NilPtrTestCommand2 => true
  | _ => false
  end.

(** An [ApplyEvent] that does what the package asks of it: the version goes
    up by one, through one call of [IncrementVersion]. *)
Definition increments_version (A : Type) `{Aggregate A} : Prop :=
  forall (e : Event) (a : A),
    result agg_Version (after (agg_ApplyEvent e) a)
    = GoInt.incr (result agg_Version a).

(** ** The methods of the test commands *)

(** The methods have value receivers: they read a copy of the struct. *)
Definition TestCommand_AggregateID (t : TestCommand) : UUID := TestID t.
Definition TestCommand_AggregateType (t : TestCommand) : AggregateType :=
  TestAggregateType.
Definition TestCommand_CommandType (t : TestCommand) : CommandType :=
  TestCommandType.

Definition TestCommand2_AggregateID (t : TestCommand2) : UUID := TestID2 t.
Definition TestCommand2_AggregateType (t : TestCommand2) : AggregateType :=
  TestAggregate2Type.
Definition TestCommand2_CommandType (t : TestCommand2) : CommandType :=
  TestCommand2Type.

(** A method called on a [Command]: the dynamic type picks the method, a
    pointer is dereferenced for it, and the nil interface and the nil
    pointers panic ([None]). *)
Definition Command_AggregateID (c : Command) : option UUID :=
  match c with
  | nilCommand | NilPtrTestCommand | NilPtrTestCommand2 => None
  | PtrTestCommand t | ValTestCommand t => Some (TestCommand_AggregateID t)
  | PtrTestCommand2 t | ValTestCommand2 t => Some (TestCommand2_AggregateID t)
  end.

Definition Command_AggregateType (c : Command) : option AggregateType :=
  match c with
  | nilCommand | NilPtrTestCommand | NilPtrTestCommand2 => None
  | PtrTestCommand t | ValTestCommand t => Some (TestCommand_AggregateType t)
  | PtrTestCommand2 t | ValTestCommand2 t => Some (TestCommand2_AggregateType t)
  end.

Definition Command_CommandType (c : Command) : option CommandType :=
  match c with
  | nilCommand | NilPtrTestCommand | NilPtrTestCommand2 => None
  | PtrTestCommand t | ValTestCommand t => Some (TestCommand_CommandType t)
  | PtrTestCommand2 t | ValTestCommand2 t => Some (TestCommand2_CommandType t)
  end.

(** ** Calls on a test aggregate *)

(** What a caller does to a [TestAggregate] through the [Aggregate]
    interface, short of storing events of its own making.  A caller that
    goes on after a call of [HandleCommand] that panicked has recovered from
    the panic; the aggregate is as the call left it. *)
Inductive testCall : Type :=
  | DoHandleCommand (now : Time) (command : Command)
  | DoApplyEvent (event : Event)
  | DoClearUncommittedEvents.

Definition doCall (c : testCall) : Method TestAggregate.t unit :=
  match c with
  | DoHandleCommand now command =>
      TestAggregate.HandleCommand now command ;; ret tt
  | DoApplyEvent event => TestAggregate.ApplyEvent event
  | DoClearUncommittedEvents =>
      TestAggregate.onBase AggregateBase.ClearUncommittedEvents
  end.

Fixpoint doCalls (cs : list testCall) : Method TestAggregate.t unit :=
  match cs with
  | [] => ret tt
  | c :: rest => doCall c ;; doCalls rest
  end.

Definition isHandleCommand (c : testCall) : bool :=
  match c with DoHandleCommand _ _ => true | _ => false end.

Definition isApplyEvent (c : testCall) : bool :=
  match c with DoApplyEvent _ => true | _ => false end.

(** An event that carries the given aggregate type and ID, and the event type
    of the tests, in a value of the struct [event]. *)
Definition stampedBy (ty : AggregateType) (id : UUID) (ev : Event) : bool :=
  match ev with
  | EventOf e =>
      String.eqb (event.aggregateType e) ty
      && String.eqb (event.aggregateID e) id
      && String.eqb (event.eventType e) TestEventType
  | _ => false
  end.

(** Commands handled one after the other, each at its own clock reading. *)
Fixpoint handleAll {A : Type} `{Aggregate A} (commands : list (Time * Command))
  : Method A unit :=
  match commands with
  | [] => ret tt
  | (now, command) :: rest => agg_HandleCommand now command ;; handleAll rest
  end.

(** The events [TestAggregate.HandleCommand] creates for a list of commands
    when the aggregate has type [ty], ID [id] and version [v] throughout. *)
Fixpoint eventsFor (ty : AggregateType) (id : UUID) (v : Z)
    (commands : list (Time * Command)) : list Event :=
  match commands with
  | [] => []
  | (now, PtrTestCommand tc) :: rest =>
      if String.eqb (Content tc) "error"
      then eventsFor ty id v rest
      else EventOf {| event.eventType := TestEventType;
                      event.data := TestEventData (Content tc);
                      event.timestamp := now;
                      event.aggregateType := ty;
                      event.aggregateID := id;
                      event.version := GoInt.add v 1 |}
           :: eventsFor ty id v rest
  | _ :: rest => eventsFor ty id v rest
  end.

(** ** The mocks *)

Module MockEventStore.

Record t : Type := mk {
  Events : list Event;
  Loaded : UUID;
  err : option error
}.

(** The loop of [Save]: one [append] for each event, in order. *)
Fixpoint appendEach (events : list Event) : Method t unit :=
  match events with
  | [] => ret tt
  | event :: rest =>
      modify (fun m => {| Events := Events m ++ [event];
                          Loaded := Loaded m;
                          err := err m |}) ;;
      appendEach rest
  end.

Definition Save (events : list Event) (originalVersion : Z)
  : Method t (option error) :=
  e <- gets err ;;
  match e with
  | Some e => ret (Some e)
  | None => appendEach events ;; ret None
  end.

(** The nil slice that goes with an error is the empty list. *)
Definition Load (aggregateType : AggregateType) (id : UUID)
  : Method t (list Event * option error) :=
  e <- gets err ;;
  match e with
  | Some e => ret ([], Some e)
  | None =>
      modify (fun m => {| Events := Events m;
                          Loaded := id;
                          err := err m |}) ;;
      events <- gets Events ;;
      ret (events, None)
  end.

End MockEventStore.

Module MockEventBus.

Record t : Type := mk {
  Events : list Event
}.

Definition PublishEvent (event : Event) : Method t unit :=
  modify (fun m => {| Events := Events m ++ [event] |}).

(** The three methods below have empty bodies; the types of their arguments
    are declared outside the sources read here and stay abstract. *)
Definition AddHandler {H : Type} (handler : H) (eventType : EventType)
  : Method t unit := ret tt.

Definition AddObserver {O : Type} (observer : O) : Method t unit := ret tt.

Definition SetHandlingStrategy {S : Type} (strategy : S) : Method t unit :=
  ret tt.

End MockEventBus.

(** A call on the mock bus, with handler, observer and strategy of any type. *)
Inductive busCall (H O S : Type) : Type :=
  | BusPublishEvent (event : Event)
  | BusAddHandler (handler : H) (eventType : EventType)
  | BusAddObserver (observer : O)
  | BusSetHandlingStrategy (strategy : S).
Arguments BusPublishEvent {H O S} event.
Arguments BusAddHandler {H O S} handler eventType.
Arguments BusAddObserver {H O S} observer.
Arguments BusSetHandlingStrategy {H O S} strategy.

Definition busPerform {H O S : Type} (c : busCall H O S)
  : Method MockEventBus.t unit :=
  match c with
  | BusPublishEvent event => MockEventBus.PublishEvent event
  | BusAddHandler handler eventType => MockEventBus.AddHandler handler eventType
  | BusAddObserver observer => MockEventBus.AddObserver observer
  | BusSetHandlingStrategy strategy => MockEventBus.SetHandlingStrategy strategy
  end.

Fixpoint busPerformAll {H O S : Type} (cs : list (busCall H O S))
  : Method MockEventBus.t unit :=
  match cs with
  | [] => ret tt
  | c :: rest => busPerform c ;; busPerformAll rest
  end.

(** The events a list of calls publishes, in the order of the calls. *)
Fixpoint published {H O S : Type} (cs : list (busCall H O S)) : list Event :=
  match cs with
  | [] => []
  | BusPublishEvent event :: rest => event :: published rest
  | _ :: rest => published rest
  end.

(** Aggregates are handed around as pointers.  [loc] is an address, the heap
    tells what lives there, and an [Aggregate] interface value is [nil] or
    the address of a test aggregate. *)
Definition loc : Type := positive.

Inductive object : Type :=
  | ObjTestAggregate (a : TestAggregate.t)
  | ObjTestAggregate2 (a : TestAggregate2.t).

Inductive AggregatePtr : Type :=
  | nilAggregate
  | PtrAggregate (l : loc).

(** [AggregateID()] through the interface: the promoted method of the base. *)
Definition object_AggregateID (o : object) : UUID :=
  match o with
  | ObjTestAggregate a =>
      result (TestAggregate.onBase AggregateBase.AggregateID) a
  | ObjTestAggregate2 a =>
      result (TestAggregate2.onBase AggregateBase.AggregateID) a
  end.

(** The run-time panic of an assignment into a map that was never made. *)
Definition panicNilMap : string := "assignment to entry in nil map".

Module MockRepository.

(** [Aggregates] is [None] for the nil map of a repository whose map was
    never made. *)
Record t : Type := mk {
  Aggregates : option (gmap string AggregatePtr)
}.

(** Reading a nil map, or a key that is not in the map, yields the zero
    value, the nil interface. *)
Definition Load (aggregateType : AggregateType) (id : UUID)
  : Method t (AggregatePtr * option error) :=
  fun m =>
    ((match Aggregates m with
      | Some aggregates => default nilAggregate (aggregates !! id)
      | None => nilAggregate
      end, None), m).

(** The key is computed first, by a call through the interface that panics
    on nil; the assignment panics on a nil map.  [heap] is the memory the
    pointer is read in (an address with no object does not occur). *)
Definition Save (heap : gmap loc object) (aggregate : AggregatePtr)
  : Method t (outcome (option error)) :=
  fun m =>
    match aggregate with
    | nilAggregate => (Panics panicNilDereference, m)
    | PtrAggregate l =>
        match heap !! l with
        | None => (Panics panicNilDereference, m)
        | Some o =>
            match Aggregates m with
            | None => (Panics panicNilMap, m)
            | Some aggregates =>
                (Returns None,
                 {| Aggregates :=
                      Some (<[object_AggregateID o := aggregate]> aggregates) |})
            end
        end
    end.

End MockRepository.

(** * Properties *)

(** ** Arithmetic on [int] *)

Lemma wrap_in_range (z : Z) : GoInt.in_range z -> GoInt.wrap z = z.
Proof.
  unfold GoInt.in_range, GoInt.wrap, GoInt.min_int, GoInt.max_int, GoInt.bits.
  intros Hz. rewrite Z.mod_small; lia.
Qed.

Lemma add_one (v : Z) :
  GoInt.min_int <= v < GoInt.max_int -> GoInt.add v 1 = v + 1.
Proof.
  intros Hv. unfold GoInt.add. apply wrap_in_range.
  unfold GoInt.in_range. lia.
Qed.

Lemma incr_succ (v : Z) :
  GoInt.min_int <= v < GoInt.max_int -> GoInt.incr v = v + 1.
Proof. apply add_one. Qed.

Lemma add_max_int : GoInt.add GoInt.max_int 1 = GoInt.min_int.
Proof. reflexivity. Qed.

(** ** The state monad *)

Lemma after_bind {S A B : Type} (m : Method S A) (k : A -> Method S B) (s : S) :
  after (bind m k) s = after (k (result m s)) (after m s).
Proof. unfold after, result, bind. destruct (m s); reflexivity. Qed.

(** ** AggregateBase: construction, accessors, the buffer *)

Lemma NewEvent_run (now : Time) (ty : EventType) (d : EventData)
    (a : AggregateBase.t) :
  AggregateBase.NewEvent now ty d a
  = (EventOf {| event.eventType := ty;
                event.data := d;
                event.timestamp := now;
                event.aggregateType := AggregateBase.aggregateType a;
                event.aggregateID := AggregateBase.id a;
                event.version := GoInt.add (AggregateBase.version a) 1 |}, a).
Proof. reflexivity. Qed.

Lemma perform_version (c : call) (a : AggregateBase.t) :
  AggregateBase.version (after (perform c) a) = AggregateBase.version a.
Proof. destruct c; reflexivity. Qed.

Lemma performAll_version (cs : list call) (a : AggregateBase.t) :
  AggregateBase.version (after (performAll cs) a) = AggregateBase.version a.
Proof.
  revert a. induction cs as [|c rest IH]; intros a; [reflexivity|].
  cbn [performAll]. rewrite after_bind, IH. apply perform_version.
Qed.

(** C8. [NewAggregateBase t id] is a fresh aggregate: its version is 0, its
    buffer of uncommitted events is empty, [AggregateType] returns [t] and
    [AggregateID] returns [id]; on any aggregate the three accessors return
    the field and leave the receiver as it was. *)
Theorem NewAggregateBase_fresh :
  forall (t : AggregateType) (id : UUID),
    let a := AggregateBase.NewAggregateBase t id in
    AggregateBase.Version a = (0, a) /\
    AggregateBase.UncommittedEvents a = ([], a) /\
    AggregateBase.AggregateType a = (t, a) /\
    AggregateBase.AggregateID a = (id, a) /\
    forall b : AggregateBase.t,
      AggregateBase.AggregateType b = (AggregateBase.aggregateType b, b) /\
      AggregateBase.AggregateID b = (AggregateBase.id b, b) /\
      AggregateBase.Version b = (AggregateBase.version b, b).
Proof. intros t id a. repeat split. Qed.

(** C6. [StoreEvent e] puts [e] at the end of the buffer: [UncommittedEvents]
    then returns the earlier sequence followed by [e].  Nothing else changes:
    type, ID and version of the base stay, and on the test aggregates, which
    reach the method through the embedded base, the applied event and the
    other fields stay too, so [e] is not applied. *)
Theorem StoreEvent_appends :
  forall (e : Event) (a : AggregateBase.t),
    let a' := after (AggregateBase.StoreEvent e) a in
    result AggregateBase.UncommittedEvents a'
    = (result AggregateBase.UncommittedEvents a ++ [e])%list /\
    result AggregateBase.Version a' = result AggregateBase.Version a /\
    a' = {| AggregateBase.aggregateType := AggregateBase.aggregateType a;
            AggregateBase.id := AggregateBase.id a;
            AggregateBase.version := AggregateBase.version a;
            AggregateBase.uncommittedEvents :=
              (AggregateBase.uncommittedEvents a ++ [e])%list |} /\
    (forall t : TestAggregate.t,
        let t' := after (agg_StoreEvent e) t in
        TestAggregate.base t' = after (AggregateBase.StoreEvent e)
                                  (TestAggregate.base t) /\
        TestAggregate.appliedEvent t' = TestAggregate.appliedEvent t /\
        TestAggregate.dispatchedCommand t' = TestAggregate.dispatchedCommand t /\
        TestAggregate.numHandled t' = TestAggregate.numHandled t /\
        result agg_Version t' = result agg_Version t) /\
    (forall t : TestAggregate2.t,
        let t' := after (agg_StoreEvent e) t in
        TestAggregate2.base t' = after (AggregateBase.StoreEvent e)
                                   (TestAggregate2.base t) /\
        TestAggregate2.appliedEvent t' = TestAggregate2.appliedEvent t /\
        TestAggregate2.dispatchedCommand t' = TestAggregate2.dispatchedCommand t /\
        TestAggregate2.numHandled t' = TestAggregate2.numHandled t /\
        result agg_Version t' = result agg_Version t).
Proof.
  intros e a a'. repeat split.
Qed.

(** C7. After [ClearUncommittedEvents], [UncommittedEvents] returns the empty
    sequence, whatever the buffer held; type, ID and version are unchanged. *)
Theorem ClearUncommittedEvents_empties :
  forall a : AggregateBase.t,
    let a' := after AggregateBase.ClearUncommittedEvents a in
    result AggregateBase.UncommittedEvents a' = [] /\
    result AggregateBase.AggregateType a' = result AggregateBase.AggregateType a /\
    result AggregateBase.AggregateID a' = result AggregateBase.AggregateID a /\
    result AggregateBase.Version a' = result AggregateBase.Version a.
Proof. intros a a'. repeat split. Qed.

(** C10. [a.NewEvent(type, data)] leaves [a] as it was: the buffer does not
    receive the event, the version and every other field stay.  The same
    holds on the test aggregates, which reach the method through the embedded
    base; the event enters the buffer through [StoreEvent] only. *)
Theorem NewEvent_leaves_aggregate :
  forall (now : Time) (ty : EventType) (d : EventData),
    (forall a : AggregateBase.t,
        after (AggregateBase.NewEvent now ty d) a = a /\
        result AggregateBase.UncommittedEvents
          (after (AggregateBase.NewEvent now ty d) a)
        = result AggregateBase.UncommittedEvents a /\
        result AggregateBase.UncommittedEvents
          (after (e <- AggregateBase.NewEvent now ty d ;;
                  AggregateBase.StoreEvent e) a)
        = (result AggregateBase.UncommittedEvents a
             ++ [result (AggregateBase.NewEvent now ty d) a])%list) /\
    (forall t : TestAggregate.t, after (agg_NewEvent now ty d) t = t) /\
    (forall t : TestAggregate2.t, after (agg_NewEvent now ty d) t = t).
Proof.
  intros now ty d. split; [|split].
  - intros a. repeat split.
  - intros [b c e n]. reflexivity.
  - intros [b c e n]. reflexivity.
Qed.

(** C2. [a.NewEvent(type, data)] returns an event of the struct [event] that
    carries the type and the ID of [a] and the version [Version()+1] (the
    sum is Go's, and is the integer successor below the largest [int]), with
    the requested event type, payload and time stamp.  Whatever is called on
    [a] afterwards, short of [IncrementVersion], the next event [a.NewEvent]
    creates carries that same version. *)
Theorem AggregateBase_NewEvent_stamps :
  forall (now : Time) (ty : EventType) (d : EventData) (a : AggregateBase.t),
  exists e : event.t,
    result (AggregateBase.NewEvent now ty d) a = EventOf e /\
    event.AggregateType e = result AggregateBase.AggregateType a /\
    event.AggregateID e = result AggregateBase.AggregateID a /\
    event.Version e = GoInt.add (result AggregateBase.Version a) 1 /\
    (GoInt.min_int <= result AggregateBase.Version a < GoInt.max_int ->
     event.Version e = result AggregateBase.Version a + 1) /\
    event.EventType e = ty /\
    event.Data e = d /\
    event.Timestamp e = now /\
    forall (cs : list call) (now' : Time) (ty' : EventType) (d' : EventData),
    exists e' : event.t,
      result (AggregateBase.NewEvent now' ty' d') (after (performAll cs) a)
      = EventOf e' /\
      event.Version e' = event.Version e.
Proof.
  intros now ty d a. unfold result. rewrite NewEvent_run. eexists.
  split; [reflexivity|]. cbn [fst].
  do 3 (split; [reflexivity|]).
  split; [intros Hv; apply add_one; exact Hv|].
  do 3 (split; [reflexivity|]).
  intros cs now' ty' d'. rewrite NewEvent_run. eexists.
  split; [reflexivity|].
  unfold event.Version. cbn [event.version].
  now rewrite performAll_version.
Qed.

Lemma AggregateBase_NewEvent_stamps_witness :
  exists e : event.t,
    result (AggregateBase.NewEvent 1 TestEventType (TestEventData "event1"))
      (AggregateBase.NewAggregateBase TestAggregateType "a1") = EventOf e /\
    event.AggregateType e = TestAggregateType /\
    event.AggregateID e = "a1" /\
    event.Version e = 1.
Proof.
  destruct (AggregateBase_NewEvent_stamps 1 TestEventType
              (TestEventData "event1")
              (AggregateBase.NewAggregateBase TestAggregateType "a1"))
    as (e & He & Hty & Hid & _ & Hv & _).
  exists e. split; [exact He|]. split; [exact Hty|]. split; [exact Hid|].
  apply Hv. split; [intros Hc; discriminate Hc | reflexivity].
Defined.

(** ** Versions and applied events *)

(** Where [ApplyEvent] increments the version once, the version counts the
    events applied, as long as the count fits an [int]. *)
Lemma version_counts_applied {A : Type} `{Aggregate A} :
  increments_version A ->
  forall (events : list Event) (a : A),
    0 <= result agg_Version a ->
    result agg_Version a + Z.of_nat (length events) <= GoInt.max_int ->
    result agg_Version (after (applyAll events) a)
    = result agg_Version a + Z.of_nat (length events).
Proof.
  intros Hinc events. induction events as [|e rest IH]; intros a H0 Hmax.
  - cbn. lia.
  - cbn [applyAll]. rewrite after_bind.
    cbn [length] in *. rewrite Nat2Z.inj_succ in *.
    assert (Hstep : result agg_Version (after (agg_ApplyEvent e) a)
                    = result agg_Version a + 1).
    { rewrite Hinc. apply incr_succ. unfold GoInt.min_int. lia. }
    rewrite IH; rewrite Hstep; lia.
Qed.

Lemma TestAggregate_increments_version : increments_version TestAggregate.t.
Proof. intros e [b c ev n]. reflexivity. Qed.

Lemma TestAggregate2_applyAll_base (events : list Event) (a : TestAggregate2.t) :
  TestAggregate2.base (after (applyAll events) a) = TestAggregate2.base a.
Proof.
  revert a. induction events as [|e rest IH]; intros a; [reflexivity|].
  cbn [applyAll]. rewrite after_bind, IH. reflexivity.
Qed.

(** C1. What [TestAggregate2] does where the property fails: its
    [ApplyEvent] never reaches [IncrementVersion], so from a fresh aggregate
    the version is still 0 after any number of applied events; and the event
    created after one event was created and applied carries version 1 like
    the first one. *)
Theorem TestAggregate2_ApplyEvent_keeps_version :
  forall (id : UUID),
    (forall events : list Event,
        result agg_Version
          (after (applyAll events) (TestAggregate2.NewTestAggregate2 id)) = 0) /\
    (forall (now1 now2 : Time) (ty1 ty2 : EventType) (d1 d2 : EventData),
        let a0 := TestAggregate2.NewTestAggregate2 id in
        let e1 := result (agg_NewEvent now1 ty1 d1) a0 in
        let a1 := after (agg_ApplyEvent e1) a0 in
        let e2 := result (agg_NewEvent now2 ty2 d2) a1 in
        exists x1 x2 : event.t,
          e1 = EventOf x1 /\ e2 = EventOf x2 /\
          event.Version x1 = 1 /\ event.Version x2 = 1 /\
          result agg_Version (after (agg_ApplyEvent e2) a1) = 0).
Proof.
  intros id. split.
  - intros events. cbn [agg_Version TestAggregate2_Aggregate].
    unfold result, TestAggregate2.onBase.
    rewrite TestAggregate2_applyAll_base. reflexivity.
  - intros now1 now2 ty1 ty2 d1 d2. cbn zeta.
    eexists. eexists. repeat split.
Qed.

(** ** Commands that are turned down *)

Lemma TestAggregate_HandleCommand_rejected (now : Time) (c : Command)
    (a : TestAggregate.t) :
  rejects c = true ->
  exists r : outcome (option error),
    TestAggregate.HandleCommand now c a
    = (r,
       {| TestAggregate.base := TestAggregate.base a;
          TestAggregate.dispatchedCommand := c;
          TestAggregate.appliedEvent := TestAggregate.appliedEvent a;
          TestAggregate.numHandled := GoInt.incr (TestAggregate.numHandled a) |}) /\
    r <> Returns None /\
    (panics c = false -> exists err : error, r = Returns (Some err)) /\
    (panics c = true -> r = Panics panicNilDereference).
Proof.
  intros Hrej. destruct c as [|tc|tc|tc|tc| |]; cbn in Hrej;
    try (eexists; split; [reflexivity|];
         split; [discriminate|];
         split; [intros _; eexists; reflexivity | discriminate]).
  - unfold TestAggregate.HandleCommand, bind; cbn. rewrite Hrej.
    eexists; split; [reflexivity|].
    split; [discriminate|].
    split; [intros _; eexists; reflexivity | discriminate].
  - eexists; split; [reflexivity|].
    split; [discriminate|]. split; [discriminate | reflexivity].
Qed.

Lemma TestAggregate2_HandleCommand_rejected (now : Time) (c : Command)
    (a : TestAggregate2.t) :
  rejects2 c = true ->
  exists r : outcome (option error),
    TestAggregate2.HandleCommand now c a
    = (r,
       {| TestAggregate2.base := TestAggregate2.base a;
          TestAggregate2.dispatchedCommand := c;
          TestAggregate2.appliedEvent := TestAggregate2.appliedEvent a;
          TestAggregate2.numHandled := GoInt.incr (TestAggregate2.numHandled a) |}) /\
    r <> Returns None /\
    (panics2 c = false -> exists err : error, r = Returns (Some err)) /\
    (panics2 c = true -> r = Panics panicNilDereference).
Proof.
  intros Hrej. destruct c as [|tc|tc|tc|tc| |]; cbn in Hrej;
    try (eexists; split; [reflexivity|];
         split; [discriminate|];
         split; [intros _; eexists; reflexivity | discriminate]).
  - unfold TestAggregate2.HandleCommand, bind; cbn. rewrite Hrej.
    eexists; split; [reflexivity|].
    split; [discriminate|].
    split; [intros _; eexists; reflexivity | discriminate].
  - eexists; split; [reflexivity|].
    split; [discriminate|]. split; [discriminate | reflexivity].
Qed.

(** What a [TestCommand] that is not in error does to a [TestAggregate]. *)
Lemma TestAggregate_HandleCommand_accepted_run (now : Time) (tc : TestCommand)
    (a : TestAggregate.t) :
  String.eqb (Content tc) "error" = false ->
  TestAggregate.HandleCommand now (PtrTestCommand tc) a
  = (Returns None,
     {| TestAggregate.base :=
          {| AggregateBase.aggregateType :=
               AggregateBase.aggregateType (TestAggregate.base a);
             AggregateBase.id := AggregateBase.id (TestAggregate.base a);
             AggregateBase.version :=
               AggregateBase.version (TestAggregate.base a);
             AggregateBase.uncommittedEvents :=
               (AggregateBase.uncommittedEvents (TestAggregate.base a)
                ++ [EventOf
                      {| event.eventType := TestEventType;
                         event.data := TestEventData (Content tc);
                         event.timestamp := now;
                         event.aggregateType :=
                           AggregateBase.aggregateType (TestAggregate.base a);
                         event.aggregateID :=
                           AggregateBase.id (TestAggregate.base a);
                         event.version :=
                           GoInt.add
                             (AggregateBase.version (TestAggregate.base a)) 1
                      |}])%list |};
        TestAggregate.dispatchedCommand := PtrTestCommand tc;
        TestAggregate.appliedEvent := TestAggregate.appliedEvent a;
        TestAggregate.numHandled := GoInt.incr (TestAggregate.numHandled a) |}).
Proof.
  intros Hacc. unfold TestAggregate.HandleCommand, bind; cbn.
  rewrite Hacc. reflexivity.
Qed.

(** C3, as the code has it.  A command that is a pointer to a command of
    the aggregate's kind with content ["error"], or that is of a type the
    switch of the aggregate has no case for (the nil interface is one), gets
    a non-nil error, and the embedded base is left as it was: nothing is
    stored in the buffer, and type, ID and version stay; the applied event
    stays too.  The call is recorded all the same: [dispatchedCommand] is
    the command, and [numHandled] went up by one.  The nil pointer of the
    type the switch has a case for is not among these commands. *)
Theorem HandleCommand_rejection_keeps_base :
  forall (now : Time) (c : Command),
    (forall a : TestAggregate.t,
        rejects c = true ->
        panics c = false ->
        let a' := after (agg_HandleCommand now c) a in
        (exists err : error,
            result (agg_HandleCommand now c) a = Returns (Some err)) /\
        TestAggregate.base a' = TestAggregate.base a /\
        result agg_UncommittedEvents a' = result agg_UncommittedEvents a /\
        result agg_Version a' = result agg_Version a /\
        TestAggregate.appliedEvent a' = TestAggregate.appliedEvent a /\
        TestAggregate.dispatchedCommand a' = c /\
        TestAggregate.numHandled a' = GoInt.incr (TestAggregate.numHandled a)) /\
    (forall a : TestAggregate2.t,
        rejects2 c = true ->
        panics2 c = false ->
        let a' := after (agg_HandleCommand now c) a in
        (exists err : error,
            result (agg_HandleCommand now c) a = Returns (Some err)) /\
        TestAggregate2.base a' = TestAggregate2.base a /\
        result agg_UncommittedEvents a' = result agg_UncommittedEvents a /\
        result agg_Version a' = result agg_Version a /\
        TestAggregate2.appliedEvent a' = TestAggregate2.appliedEvent a /\
        TestAggregate2.dispatchedCommand a' = c /\
        TestAggregate2.numHandled a' = GoInt.incr (TestAggregate2.numHandled a)).
Proof.
  intros now c. split; intros a Hrej Hnil a'; subst a';
    cbn [agg_HandleCommand agg_UncommittedEvents agg_Version
         TestAggregate_Aggregate TestAggregate2_Aggregate];
    unfold result, after.
  - destruct (TestAggregate_HandleCommand_rejected now c a Hrej)
      as (r & -> & _ & Herr & _).
    destruct (Herr Hnil) as [err ->].
    split; [exists err; reflexivity|]. repeat split.
  - destruct (TestAggregate2_HandleCommand_rejected now c a Hrej)
      as (r & -> & _ & Herr & _).
    destruct (Herr Hnil) as [err ->].
    split; [exists err; reflexivity|]. repeat split.
Qed.

Lemma HandleCommand_rejection_keeps_base_witness :
  let a := TestAggregate.NewTestAggregate "a1" in
  let c := PtrTestCommand {| TestID := "a1"; Content := "error" |} in
  let a' := after (agg_HandleCommand 1 c) a in
  (exists err : error, result (agg_HandleCommand 1 c) a = Returns (Some err)) /\
  TestAggregate.base a' = TestAggregate.base a /\
  result agg_UncommittedEvents a' = [] /\
  result agg_Version a' = 0.
Proof.
  intros a c a'.
  destruct (HandleCommand_rejection_keeps_base 1 c) as [H1 _].
  destruct (H1 a eq_refl eq_refl) as (Herr & Hbase & Hbuf & Hver & _).
  split; [exact Herr|]. split; [exact Hbase|].
  split; [exact Hbuf | exact Hver].
Defined.

(** C3, as it is worded, fails: a fresh [TestAggregate] that is sent a
    [TestCommand] with content ["error"] returns the error, and is not the
    aggregate it was: [numHandled] is 1 and [dispatchedCommand] is set.
    Sent the nil pointer of [*TestCommand], it returns no error at all: the
    call panics, after it has counted the command. *)
Lemma HandleCommand_error_modifies_aggregate :
  let a := TestAggregate.NewTestAggregate "a1" in
  let c := PtrTestCommand {| TestID := "a1"; Content := "error" |} in
  let a' := after (agg_HandleCommand 1 c) a in
  result (agg_HandleCommand 1 c) a
  = Returns (Some (errors_New "command error")) /\
  TestAggregate.numHandled a = 0 /\
  TestAggregate.numHandled a' = 1 /\
  TestAggregate.dispatchedCommand a = nilCommand /\
  TestAggregate.dispatchedCommand a' = c /\
  a' <> a /\
  result (agg_HandleCommand 1 NilPtrTestCommand) a
  = Panics panicNilDereference /\
  TestAggregate.numHandled (after (agg_HandleCommand 1 NilPtrTestCommand) a) = 1.
Proof.
  intros a c a'. do 5 (split; [reflexivity|]). split; [|split; reflexivity].
  intros Heq. apply (f_equal TestAggregate.numHandled) in Heq.
  discriminate Heq.
Qed.

(** ** The registry *)

Lemma RegisterEventData_empty (factory : unit -> EventData)
    (factories : gmap string (unit -> EventData)) :
  RegisterEventData "" factory factories = (Panics panicEmptyEventType, factories).
Proof. reflexivity. Qed.

Lemma RegisterEventData_fresh (eventType : EventType)
    (factory : unit -> EventData) (factories : gmap string (unit -> EventData)) :
  eventType <> "" ->
  factories !! eventType = None ->
  RegisterEventData eventType factory factories
  = (Returns tt, <[eventType := factory]> factories).
Proof.
  intros Hne Hnone. unfold RegisterEventData.
  destruct (String.eqb_spec eventType "") as [Heq|_]; [contradiction|].
  now rewrite Hnone.
Qed.

Lemma RegisterEventData_taken (eventType : EventType)
    (factory old : unit -> EventData)
    (factories : gmap string (unit -> EventData)) :
  factories !! eventType = Some old ->
  after (RegisterEventData eventType factory) factories = factories /\
  exists p : string,
    result (RegisterEventData eventType factory) factories = Panics p.
Proof.
  intros Hsome. unfold RegisterEventData, after, result.
  destruct (String.eqb eventType ""); [split; [reflexivity|eexists; reflexivity]|].
  rewrite Hsome. split; [reflexivity|eexists; reflexivity].
Qed.

(** The empty type is in no registry that registrations can build. *)
Lemma registered_no_empty_type (factories : gmap string (unit -> EventData)) :
  registered factories -> factories !! ("" : EventType) = None.
Proof.
  induction 1 as [|factories eventType factory _ IH]; [apply lookup_empty|].
  unfold after, RegisterEventData.
  destruct (String.eqb_spec eventType "") as [Heq|Hne]; [exact IH|].
  destruct (factories !! eventType); [exact IH|].
  cbn [snd]. rewrite lookup_insert_ne; [exact IH | exact Hne].
Qed.

(** Registrations only add: an entry stays, with the constructor it has. *)
Lemma RegisterEventData_keeps (eventType other : EventType)
    (factory old : unit -> EventData)
    (factories : gmap string (unit -> EventData)) :
  factories !! other = Some old ->
  after (RegisterEventData eventType factory) factories !! other = Some old.
Proof.
  intros Hsome. unfold after, RegisterEventData.
  destruct (String.eqb eventType ""); [exact Hsome|].
  destruct (factories !! eventType) eqn:Hty; [exact Hsome|].
  cbn [snd]. rewrite lookup_insert_ne; [exact Hsome|].
  intros ->. rewrite Hsome in Hty. discriminate Hty.
Qed.

(** C4. Registration with the empty event type panics and leaves the registry
    as it was, so that no lookup finds an entry for the empty type, in this
    registry or in any that registrations build.  When a type is registered
    twice the first call returns, the second one panics and leaves the
    registry as the first call made it, and [CreateEventData] for the type
    still answers with the first constructor. *)
Theorem RegisterEventData_fails_fast :
  forall (factories : gmap string (unit -> EventData))
         (factory : unit -> EventData),
    RegisterEventData "" factory factories
    = (Panics panicEmptyEventType, factories) /\
    (registered factories ->
     result (CreateEventData "")
       (after (RegisterEventData "" factory) factories)
     = (nilEventData, Some ErrEventDataNotRegistered)) /\
    (forall (eventType : EventType) (second : unit -> EventData),
        eventType <> "" ->
        factories !! eventType = None ->
        let once := after (RegisterEventData eventType factory) factories in
        let twice := after (RegisterEventData eventType second) once in
        result (RegisterEventData eventType factory) factories = Returns tt /\
        result (RegisterEventData eventType second) once
        = Panics (panicDuplicateEventType eventType) /\
        twice = once /\
        result (CreateEventData eventType) twice = (factory tt, None)).
Proof.
  intros factories factory. split; [reflexivity|]. split.
  - intros Hreg. unfold after. rewrite RegisterEventData_empty. cbn [snd].
    unfold result, CreateEventData.
    now rewrite (registered_no_empty_type _ Hreg).
  - intros eventType second Hne Hnone once twice. subst twice once.
    unfold result, after.
    rewrite (RegisterEventData_fresh _ factory _ Hne Hnone). cbn [fst snd].
    unfold RegisterEventData, CreateEventData.
    destruct (String.eqb_spec eventType "") as [Heq|_]; [contradiction|].
    rewrite lookup_insert_eq. cbn [fst snd]. rewrite lookup_insert_eq.
    repeat split.
Qed.

Lemma RegisterEventData_fails_fast_witness :
  let factory := fun _ : unit => TestEventRegisterTwice in
  let once := after (RegisterEventData "TestEventRegisterTwice" factory) ∅ in
  result (RegisterEventData "TestEventRegisterTwice" factory) once
  = Panics (panicDuplicateEventType "TestEventRegisterTwice") /\
  result (CreateEventData "TestEventRegisterTwice")
    (after (RegisterEventData "TestEventRegisterTwice" factory) once)
  = (TestEventRegisterTwice, None) /\
  result (CreateEventData "")
    (after (RegisterEventData "" factory) ∅)
  = (nilEventData, Some ErrEventDataNotRegistered).
Proof.
  intros factory once.
  destruct (RegisterEventData_fails_fast ∅ factory) as (_ & Hempty & Htwice).
  destruct (Htwice "TestEventRegisterTwice" factory)
    as (_ & Hpanic & _ & Hcreate).
  - intros Hc; discriminate Hc.
  - apply lookup_empty.
  - split; [exact Hpanic|]. split; [exact Hcreate|].
    apply Hempty. apply registered_empty.
Defined.

(** C5, as the model has it.  [CreateEventData] on a type that is not
    registered returns the error [ErrEventDataNotRegistered] and the nil
    payload.  On a registered type it returns no error and the payload that
    the registered constructor builds at this call; the registry holds
    constructors only and is left as it was, so the next call runs the
    constructor again.  The payload is the zero value of a concrete type [T],
    with dynamic type [T], when the registered constructor is the one that
    builds the zero value of [T]; a type is registered by a call of
    [RegisterEventData] that returns. *)
Theorem CreateEventData_by_registration :
  forall (factories : gmap string (unit -> EventData)) (eventType : EventType),
    (factories !! eventType = None ->
     CreateEventData eventType factories
     = ((nilEventData, Some ErrEventDataNotRegistered), factories)) /\
    (forall factory : unit -> EventData,
        factories !! eventType = Some factory ->
        CreateEventData eventType factories
        = ((factory tt, None), factories) /\
        result (CreateEventData eventType)
          (after (CreateEventData eventType) factories)
        = (factory tt, None)) /\
    (forall (factory : unit -> EventData) (T : EventDataType),
        factories !! eventType = Some factory ->
        constructs T factory ->
        result (CreateEventData eventType) factories = (zeroValue T, None) /\
        typeOf (fst (result (CreateEventData eventType) factories)) = Some T) /\
    (forall factory : unit -> EventData,
        eventType <> "" ->
        factories !! eventType = None ->
        result (CreateEventData eventType)
          (after (RegisterEventData eventType factory) factories)
        = (factory tt, None)).
Proof.
  intros factories eventType. split; [|split; [|split]].
  - intros Hnone. unfold CreateEventData. now rewrite Hnone.
  - intros factory Hsome. unfold result, after, CreateEventData.
    rewrite Hsome. cbn [fst snd]. rewrite Hsome. split; reflexivity.
  - intros factory T Hsome HT. unfold result, CreateEventData.
    rewrite Hsome. cbn [fst]. rewrite HT.
    split; [reflexivity|]. destruct T; reflexivity.
  - intros factory Hne Hnone. unfold result, after.
    rewrite (RegisterEventData_fresh _ factory _ Hne Hnone). cbn [snd].
    unfold CreateEventData. now rewrite lookup_insert_eq.
Qed.

Lemma CreateEventData_by_registration_witness :
  result (CreateEventData "TestEventRegister") (after init ∅)
  = (nilEventData, Some ErrEventDataNotRegistered) /\
  result (CreateEventData TestEventType) (after init ∅)
  = (TestEventData "", None) /\
  result (CreateEventData "TestEventRegister")
    (after (RegisterEventData "TestEventRegister"
              (fun _ => TestEventRegister)) (after init ∅))
  = (TestEventRegister, None).
Proof.
  split; [|split].
  - destruct (CreateEventData_by_registration (after init ∅) "TestEventRegister")
      as (Hnone & _ & _ & _).
    unfold result. rewrite Hnone; [reflexivity|]. vm_compute. reflexivity.
  - destruct (CreateEventData_by_registration (after init ∅) TestEventType)
      as (_ & _ & Hzero & _).
    destruct (Hzero (fun _ => TestEventData "") TTestEventData) as (Hrun & _).
    + vm_compute. reflexivity.
    + reflexivity.
    + exact Hrun.
  - destruct (CreateEventData_by_registration (after init ∅) "TestEventRegister")
      as (_ & _ & _ & Hreg).
    apply (Hreg (fun _ => TestEventRegister)).
    + intros Hc; discriminate Hc.
    + vm_compute. reflexivity.
Defined.

(** C5, as it is worded, fails: a type registered with a constructor that
    fills in the payload is registered, and [CreateEventData] returns for it,
    with no error, a payload of the registered concrete type that is not its
    zero value. *)
Lemma CreateEventData_nonzero_payload :
  let stale := fun _ : unit => TestEventData "stale" in
  let factories := after (RegisterEventData TestEventType stale) ∅ in
  result (RegisterEventData TestEventType stale) ∅ = Returns tt /\
  result (CreateEventData TestEventType) factories
  = (TestEventData "stale", None) /\
  typeOf (TestEventData "stale") = Some TTestEventData /\
  TestEventData "stale" <> zeroValue TTestEventData.
Proof.
  intros stale factories. subst factories. unfold result, after.
  rewrite (RegisterEventData_fresh TestEventType stale ∅);
    [|intros Hc; discriminate Hc|apply lookup_empty].
  cbn [fst snd]. unfold CreateEventData. rewrite lookup_insert_eq.
  repeat split. intros Hc; discriminate Hc.
Qed.

(** ** The package-level constructor of events *)

(** C9. [NewEvent t d] returns an event of the struct [event] whose type is
    [t], whose data is [d], whose version is 0, whose time stamp is the time
    the clock read, which is not the zero instant when the clock is not at
    it, whose aggregate type and ID are the zero values, and whose [String]
    is the type, [@] and the version. *)
Theorem NewEvent_fresh_event :
  forall (now : Time) (t : EventType) (d : EventData),
    IsZero now = false ->
    exists e : event.t,
      NewEvent now t d = EventOf e /\
      event.EventType e = t /\
      event.Data e = d /\
      event.Version e = 0 /\
      event.Timestamp e = now /\
      IsZero (event.Timestamp e) = false /\
      event.AggregateType e = "" /\
      event.AggregateID e = "" /\
      event.String e = t +:+ "@" +:+ GoInt.format_d (event.Version e) /\
      event.String e = t +:+ "@0".
Proof.
  intros now t d Hnow. eexists. split; [reflexivity|].
  repeat split. exact Hnow.
Qed.

Lemma NewEvent_fresh_event_witness :
  exists e : event.t,
    NewEvent 1 TestEventType (TestEventData "event1") = EventOf e /\
    event.EventType e = TestEventType /\
    event.Data e = TestEventData "event1" /\
    event.Version e = 0 /\
    IsZero (event.Timestamp e) = false /\
    event.String e = "TestEvent@0".
Proof.
  destruct (NewEvent_fresh_event 1 TestEventType (TestEventData "event1") eq_refl)
    as (e & He & Hty & Hd & Hv & _ & Hz & _ & _ & _ & Hs).
  exists e. repeat split; assumption.
Defined.

(** ** The test aggregate at work *)

(** On [TestAggregate], whose [ApplyEvent] defers [IncrementVersion], the
    version of a fresh aggregate after a stream of events was applied is the
    length of the stream (a length that fits an [int]). *)
Theorem TestAggregate_version_counts :
  forall (id : UUID) (events : list Event),
    Z.of_nat (length events) <= GoInt.max_int ->
    result agg_Version
      (after (applyAll events) (TestAggregate.NewTestAggregate id))
    = Z.of_nat (length events).
Proof.
  intros id events Hlen.
  rewrite (version_counts_applied TestAggregate_increments_version);
    cbn; lia.
Qed.

Lemma TestAggregate_version_counts_witness :
  result agg_Version
    (after (applyAll [nilEvent; nilEvent; nilEvent])
       (TestAggregate.NewTestAggregate "a1")) = 3.
Proof.
  apply (TestAggregate_version_counts "a1" [nilEvent; nilEvent; nilEvent]).
  intros Hc; discriminate Hc.
Defined.

(** A [TestCommand] whose content is not ["error"] gets no error from
    [TestAggregate.HandleCommand]; one event is added at the end of the
    buffer, of type [TestEventType], with the content as its data, stamped
    with the type and ID of the aggregate and the version after the current
    one; the version of the aggregate stays. *)
Theorem TestAggregate_HandleCommand_stores_event :
  forall (now : Time) (tc : TestCommand) (a : TestAggregate.t),
    rejects (PtrTestCommand tc) = false ->
    let a' := after (agg_HandleCommand now (PtrTestCommand tc)) a in
    result (agg_HandleCommand now (PtrTestCommand tc)) a = Returns None /\
    result agg_Version a' = result agg_Version a /\
    exists e : event.t,
      result agg_UncommittedEvents a'
      = (result agg_UncommittedEvents a ++ [EventOf e])%list /\
      event.EventType e = TestEventType /\
      event.Data e = TestEventData (Content tc) /\
      event.AggregateType e = AggregateBase.aggregateType (TestAggregate.base a) /\
      event.AggregateID e = AggregateBase.id (TestAggregate.base a) /\
      event.Version e = GoInt.add (result agg_Version a) 1.
Proof.
  intros now tc a Hacc a'. subst a'. cbn in Hacc.
  cbn [agg_HandleCommand agg_UncommittedEvents agg_Version
       TestAggregate_Aggregate].
  unfold result, after.
  rewrite (TestAggregate_HandleCommand_accepted_run now tc a Hacc).
  split; [reflexivity|]. split; [reflexivity|].
  eexists. split; [reflexivity|]. repeat split.
Qed.

Lemma TestAggregate_HandleCommand_stores_event_witness :
  let a := TestAggregate.NewTestAggregate "a1" in
  let c := PtrTestCommand {| TestID := "a1"; Content := "command1" |} in
  result (agg_HandleCommand 1 c) a = Returns None /\
  exists e : event.t,
    result agg_UncommittedEvents (after (agg_HandleCommand 1 c) a)
    = [EventOf e] /\
    event.Version e = 1.
Proof.
  intros a c.
  destruct (TestAggregate_HandleCommand_stores_event 1
              {| TestID := "a1"; Content := "command1" |} a eq_refl)
    as (Hnil & _ & e & Hbuf & _ & _ & _ & _ & Hv).
  split; [exact Hnil|]. exists e. split; [exact Hbuf | exact Hv].
Defined.

(** Two commands handled in a row, with no event applied in between, leave
    two events in the buffer that carry one and the same version. *)
Theorem TestAggregate_buffered_events_share_version :
  forall (now1 now2 : Time) (tc1 tc2 : TestCommand) (a : TestAggregate.t),
    rejects (PtrTestCommand tc1) = false ->
    rejects (PtrTestCommand tc2) = false ->
    let a' := after (agg_HandleCommand now1 (PtrTestCommand tc1) ;;
                     agg_HandleCommand now2 (PtrTestCommand tc2)) a in
    exists e1 e2 : event.t,
      result agg_UncommittedEvents a'
      = (result agg_UncommittedEvents a ++ [EventOf e1; EventOf e2])%list /\
      event.Version e1 = GoInt.add (result agg_Version a) 1 /\
      event.Version e2 = event.Version e1.
Proof.
  intros now1 now2 tc1 tc2 a Hacc1 Hacc2 a'. subst a'.
  cbn in Hacc1, Hacc2.
  cbn [agg_HandleCommand agg_UncommittedEvents agg_Version
       TestAggregate_Aggregate].
  rewrite after_bind. unfold result, after.
  rewrite (TestAggregate_HandleCommand_accepted_run now1 tc1 a Hacc1).
  cbn [fst snd].
  rewrite (TestAggregate_HandleCommand_accepted_run now2 tc2 _ Hacc2).
  cbn. eexists. eexists. rewrite <- app_assoc.
  split; [reflexivity|]. split; reflexivity.
Qed.

Lemma TestAggregate_buffered_events_share_version_witness :
  let a := TestAggregate.NewTestAggregate "a1" in
  let c1 := PtrTestCommand {| TestID := "a1"; Content := "command1" |} in
  let c2 := PtrTestCommand {| TestID := "a1"; Content := "command2" |} in
  exists e1 e2 : event.t,
    result agg_UncommittedEvents
      (after (agg_HandleCommand 1 c1 ;; agg_HandleCommand 2 c2) a)
    = [EventOf e1; EventOf e2] /\
    event.Version e1 = 1 /\
    event.Version e2 = event.Version e1.
Proof.
  intros a c1 c2.
  exact (TestAggregate_buffered_events_share_version 1 2
           {| TestID := "a1"; Content := "command1" |}
           {| TestID := "a1"; Content := "command2" |} a eq_refl eq_refl).
Defined.

(** ** The version counter at the bounds of [int] *)

Lemma wrap_range (z : Z) : GoInt.in_range (GoInt.wrap z).
Proof.
  unfold GoInt.in_range, GoInt.wrap, GoInt.min_int, GoInt.max_int, GoInt.bits.
  pose proof (Z.mod_pos_bound (z + 2 ^ 63) (2 ^ 64) ltac:(lia)). lia.
Qed.

(** [IncrementVersion] touches the version only: type, ID and buffer stay.
    The version goes up by one below the largest [int] and wraps around to
    the smallest [int] at it; it stays an [int] in every case. *)
Theorem IncrementVersion_bounds :
  forall a : AggregateBase.t,
    let a' := after AggregateBase.IncrementVersion a in
    AggregateBase.aggregateType a' = AggregateBase.aggregateType a /\
    AggregateBase.id a' = AggregateBase.id a /\
    AggregateBase.uncommittedEvents a' = AggregateBase.uncommittedEvents a /\
    GoInt.in_range (AggregateBase.version a') /\
    (GoInt.min_int <= AggregateBase.version a < GoInt.max_int ->
     AggregateBase.version a' = AggregateBase.version a + 1) /\
    (AggregateBase.version a = GoInt.max_int ->
     AggregateBase.version a' = GoInt.min_int).
Proof.
  intros a a'. subst a'. cbn.
  do 3 (split; [reflexivity|]).
  split; [apply wrap_range|]. split.
  - apply incr_succ.
  - intros ->. reflexivity.
Qed.

Lemma IncrementVersion_bounds_witness :
  AggregateBase.version
    (after AggregateBase.IncrementVersion
       (AggregateBase.NewAggregateBase TestAggregateType "a1")) = 1 /\
  AggregateBase.version
    (after AggregateBase.IncrementVersion
       {| AggregateBase.aggregateType := TestAggregateType;
          AggregateBase.id := "a1";
          AggregateBase.version := GoInt.max_int;
          AggregateBase.uncommittedEvents := [] |}) = GoInt.min_int.
Proof.
  split.
  - destruct (IncrementVersion_bounds
                (AggregateBase.NewAggregateBase TestAggregateType "a1"))
      as (_ & _ & _ & _ & Hup & _).
    apply Hup. split; [intros Hc; discriminate Hc | reflexivity].
  - destruct (IncrementVersion_bounds
                {| AggregateBase.aggregateType := TestAggregateType;
                   AggregateBase.id := "a1";
                   AggregateBase.version := GoInt.max_int;
                   AggregateBase.uncommittedEvents := [] |})
      as (_ & _ & _ & _ & _ & Hwrap).
    apply Hwrap. reflexivity.
Defined.

(** ** Traces of calls on a test aggregate *)

Lemma TestAggregate_HandleCommand_cases (now : Time) (c : Command)
    (a : TestAggregate.t) :
  (rejects c = true /\
   TestAggregate.base (after (TestAggregate.HandleCommand now c) a)
   = TestAggregate.base a) \/
  (exists tc : TestCommand,
      c = PtrTestCommand tc /\
      String.eqb (Content tc) "error" = false /\
      TestAggregate.base (after (TestAggregate.HandleCommand now c) a)
      = after (e <- AggregateBase.NewEvent now TestEventType
                      (TestEventData (Content tc)) ;;
               AggregateBase.StoreEvent e) (TestAggregate.base a)).
Proof.
  destruct (rejects c) eqn:Hrej.
  - left. split; [reflexivity|]. unfold after.
    destruct (TestAggregate_HandleCommand_rejected now c a Hrej)
      as (r & -> & _).
    reflexivity.
  - right. destruct c as [|tc|tc|tc|tc| |]; try discriminate Hrej.
    exists tc. cbn in Hrej. split; [reflexivity|]. split; [exact Hrej|].
    unfold after.
    rewrite (TestAggregate_HandleCommand_accepted_run now tc a Hrej).
    reflexivity.
Qed.

Lemma doCall_identity (c : testCall) (a : TestAggregate.t) :
  AggregateBase.aggregateType (TestAggregate.base (after (doCall c) a))
  = AggregateBase.aggregateType (TestAggregate.base a) /\
  AggregateBase.id (TestAggregate.base (after (doCall c) a))
  = AggregateBase.id (TestAggregate.base a).
Proof.
  destruct c as [now command|event|]; try (split; reflexivity).
  cbn [doCall]. rewrite after_bind. cbn [after ret snd].
  change (snd (TestAggregate.HandleCommand now command a))
    with (after (TestAggregate.HandleCommand now command) a).
  destruct (TestAggregate_HandleCommand_cases now command a)
    as [[_ ->]|(tc & _ & _ & ->)]; split; reflexivity.
Qed.

Lemma doCall_stamped (c : testCall) (a : TestAggregate.t) :
  forallb (stampedBy (AggregateBase.aggregateType (TestAggregate.base a))
                     (AggregateBase.id (TestAggregate.base a)))
          (AggregateBase.uncommittedEvents (TestAggregate.base a)) = true ->
  forallb (stampedBy (AggregateBase.aggregateType (TestAggregate.base a))
                     (AggregateBase.id (TestAggregate.base a)))
          (AggregateBase.uncommittedEvents
             (TestAggregate.base (after (doCall c) a))) = true.
Proof.
  intros Hinv. destruct c as [now command|event|];
    [|exact Hinv|reflexivity].
  cbn [doCall]. rewrite after_bind. cbn [after ret snd].
  change (snd (TestAggregate.HandleCommand now command a))
    with (after (TestAggregate.HandleCommand now command) a).
  destruct (TestAggregate_HandleCommand_cases now command a)
    as [[_ ->]|(tc & _ & _ & ->)]; [exact Hinv|].
  cbn. rewrite forallb_app, Hinv. cbn.
  now rewrite !String.eqb_refl.
Qed.

(** Whatever commands a [TestAggregate] made by [NewTestAggregate id] has
    handled, whatever events were applied to it and whenever its buffer was
    cleared, it still has its type and its ID, and every event in its buffer
    is a value of the struct [event] that carries this type and this ID and
    the event type [TestEventType]. *)
Theorem TestAggregate_buffer_stamped :
  forall (id : UUID) (cs : list testCall),
    let a := after (doCalls cs) (TestAggregate.NewTestAggregate id) in
    AggregateBase.aggregateType (TestAggregate.base a) = TestAggregateType /\
    AggregateBase.id (TestAggregate.base a) = id /\
    forallb (stampedBy TestAggregateType id)
            (result agg_UncommittedEvents a) = true.
Proof.
  intros id cs a. subst a.
  assert (Hgen : forall a0 : TestAggregate.t,
             forallb (stampedBy (AggregateBase.aggregateType (TestAggregate.base a0))
                                (AggregateBase.id (TestAggregate.base a0)))
                     (AggregateBase.uncommittedEvents (TestAggregate.base a0)) = true ->
             let a1 := after (doCalls cs) a0 in
             AggregateBase.aggregateType (TestAggregate.base a1)
             = AggregateBase.aggregateType (TestAggregate.base a0) /\
             AggregateBase.id (TestAggregate.base a1)
             = AggregateBase.id (TestAggregate.base a0) /\
             forallb (stampedBy (AggregateBase.aggregateType (TestAggregate.base a0))
                                (AggregateBase.id (TestAggregate.base a0)))
                     (AggregateBase.uncommittedEvents (TestAggregate.base a1)) = true).
  { induction cs as [|c rest IH]; intros a0 Hinv; [repeat split; exact Hinv|].
    cbn [doCalls]. cbn zeta. rewrite after_bind.
    destruct (doCall_identity c a0) as [Hty Hid].
    pose proof (doCall_stamped c a0 Hinv) as Hstep.
    rewrite <- Hty, <- Hid in Hstep.
    destruct (IH _ Hstep) as (Hty' & Hid' & Hbuf).
    rewrite Hty' , Hid'. rewrite Hty, Hid in Hbuf. repeat split; assumption. }
  destruct (Hgen (TestAggregate.NewTestAggregate id) eq_refl) as (Hty & Hid & Hbuf).
  repeat split; assumption.
Qed.

Lemma doCall_counts (c : testCall) (a : TestAggregate.t) :
  TestAggregate.numHandled (after (doCall c) a)
  = (if isHandleCommand c then GoInt.incr (TestAggregate.numHandled a)
     else TestAggregate.numHandled a) /\
  AggregateBase.version (TestAggregate.base (after (doCall c) a))
  = (if isApplyEvent c
     then GoInt.incr (AggregateBase.version (TestAggregate.base a))
     else AggregateBase.version (TestAggregate.base a)).
Proof.
  destruct c as [now command|event|]; try (split; reflexivity).
  cbn [doCall isHandleCommand isApplyEvent]. rewrite after_bind.
  cbn [after ret snd]. unfold after.
  destruct (rejects command) eqn:Hrej.
  - destruct (TestAggregate_HandleCommand_rejected now command a Hrej)
      as (r & -> & _). split; reflexivity.
  - destruct command as [|tc|tc|tc|tc| |]; try discriminate Hrej.
    cbn in Hrej.
    rewrite (TestAggregate_HandleCommand_accepted_run now tc a Hrej).
    split; reflexivity.
Qed.

(** On a [TestAggregate], [numHandled] counts the calls of [HandleCommand],
    turned down or not, and the version counts the calls of [ApplyEvent],
    whatever the order of the calls and whether the buffer was cleared in
    between (for counts that fit an [int]). *)
Theorem TestAggregate_counts_calls :
  forall (cs : list testCall) (a : TestAggregate.t),
    0 <= TestAggregate.numHandled a ->
    TestAggregate.numHandled a
    + Z.of_nat (length (List.filter isHandleCommand cs)) <= GoInt.max_int ->
    0 <= result agg_Version a ->
    result agg_Version a
    + Z.of_nat (length (List.filter isApplyEvent cs)) <= GoInt.max_int ->
    let a' := after (doCalls cs) a in
    TestAggregate.numHandled a'
    = TestAggregate.numHandled a
      + Z.of_nat (length (List.filter isHandleCommand cs)) /\
    result agg_Version a'
    = result agg_Version a + Z.of_nat (length (List.filter isApplyEvent cs)).
Proof.
  intros cs. cbn [agg_Version TestAggregate_Aggregate].
  unfold result, TestAggregate.onBase. cbn [fst AggregateBase.Version gets].
  induction cs as [|c rest IH]; intros a Hn Hnmax Hv Hvmax; cbn zeta.
  - cbn. lia.
  - cbn [doCalls]. rewrite after_bind.
    destruct (doCall_counts c a) as [Hnum Hver].
    assert (Hmin : GoInt.min_int <= 0) by (intros Hc; discriminate Hc).
    cbn [List.filter] in Hnmax, Hvmax |- *.
    assert (Hn1 : TestAggregate.numHandled (after (doCall c) a)
                  = TestAggregate.numHandled a
                    + (if isHandleCommand c then 1 else 0)).
    { rewrite Hnum. destruct (isHandleCommand c); [|lia].
      apply incr_succ. cbn [length] in Hnmax. lia. }
    assert (Hv1 : AggregateBase.version
                    (TestAggregate.base (after (doCall c) a))
                  = AggregateBase.version (TestAggregate.base a)
                    + (if isApplyEvent c then 1 else 0)).
    { rewrite Hver. destruct (isApplyEvent c); [|lia].
      apply incr_succ. cbn [length] in Hvmax. lia. }
    destruct (IH (after (doCall c) a)) as [IHn IHv].
    + rewrite Hn1. destruct (isHandleCommand c); lia.
    + rewrite Hn1. destruct (isHandleCommand c); cbn [length] in Hnmax; lia.
    + rewrite Hv1. destruct (isApplyEvent c); lia.
    + rewrite Hv1. destruct (isApplyEvent c); cbn [length] in Hvmax; lia.
    + cbn zeta in IHn, IHv. rewrite IHn, IHv, Hn1, Hv1.
      destruct (isHandleCommand c), (isApplyEvent c); cbn [length]; lia.
Qed.

Lemma TestAggregate_counts_calls_witness :
  let cs := [DoHandleCommand 1 (PtrTestCommand
                                  {| TestID := "a1"; Content := "error" |});
             DoApplyEvent nilEvent;
             DoHandleCommand 2 nilCommand;
             DoClearUncommittedEvents;
             DoHandleCommand 3 (PtrTestCommand
                                  {| TestID := "a1"; Content := "c" |})] in
  let a' := after (doCalls cs) (TestAggregate.NewTestAggregate "a1") in
  TestAggregate.numHandled a' = 3 /\ result agg_Version a' = 1.
Proof.
  intros cs a'.
  apply (TestAggregate_counts_calls cs (TestAggregate.NewTestAggregate "a1"));
    intros Hc; discriminate Hc.
Defined.

Lemma eventsFor_shape (ty : AggregateType) (id : UUID) (v : Z)
    (commands : list (Time * Command)) :
  length (eventsFor ty id v commands)
  = length (List.filter (fun nc => negb (rejects (snd nc))) commands) /\
  Forall (fun ev => exists e : event.t,
              ev = EventOf e /\ event.Version e = GoInt.add v 1 /\
              event.AggregateType e = ty /\ event.AggregateID e = id)
         (eventsFor ty id v commands).
Proof.
  induction commands as [|[now c] rest [IHl IHf]]; [split; [reflexivity|constructor]|].
  destruct c as [|tc|tc|tc|tc| |]; cbn [eventsFor List.filter rejects snd negb];
    try (split; assumption).
  destruct (String.eqb (Content tc) "error"); cbn [negb length];
    [split; assumption|].
  split; [now rewrite IHl|].
  constructor; [|exact IHf]. eexists. repeat split.
Qed.

Lemma TestAggregate_handleAll_run (commands : list (Time * Command))
    (a : TestAggregate.t) :
  TestAggregate.base (after (handleAll commands) a)
  = {| AggregateBase.aggregateType :=
         AggregateBase.aggregateType (TestAggregate.base a);
       AggregateBase.id := AggregateBase.id (TestAggregate.base a);
       AggregateBase.version := AggregateBase.version (TestAggregate.base a);
       AggregateBase.uncommittedEvents :=
         (AggregateBase.uncommittedEvents (TestAggregate.base a)
          ++ eventsFor (AggregateBase.aggregateType (TestAggregate.base a))
               (AggregateBase.id (TestAggregate.base a))
               (AggregateBase.version (TestAggregate.base a)) commands)%list |}.
Proof.
  revert a. induction commands as [|[now c] rest IH]; intros a.
  - cbn. rewrite app_nil_r. destruct (TestAggregate.base a); reflexivity.
  - cbn [handleAll]. rewrite after_bind, IH.
    cbn [agg_HandleCommand TestAggregate_Aggregate].
    destruct (TestAggregate_HandleCommand_cases now c a)
      as [[Hrej ->]|(tc & -> & Hacc & ->)].
    + destruct c as [|tc|tc|tc|tc| |]; cbn [eventsFor]; try reflexivity.
      cbn in Hrej. now rewrite Hrej.
    + cbn [eventsFor]. rewrite Hacc. cbn.
      now rewrite <- app_assoc.
Qed.

(** However many commands a [TestAggregate] handles in a row, its version
    stays, the buffer grows at its end by one event for each command that is
    not turned down, and all these events carry the same version, the one
    after the current version, with the type and the ID of the aggregate. *)
Theorem TestAggregate_handleAll_events :
  forall (commands : list (Time * Command)) (a : TestAggregate.t),
    let a' := after (handleAll commands) a in
    result agg_Version a' = result agg_Version a /\
    exists new : list Event,
      result agg_UncommittedEvents a'
      = (result agg_UncommittedEvents a ++ new)%list /\
      length new
      = length (List.filter (fun nc => negb (rejects (snd nc))) commands) /\
      Forall (fun ev => exists e : event.t,
                  ev = EventOf e /\
                  event.Version e = GoInt.add (result agg_Version a) 1 /\
                  event.AggregateType e
                  = AggregateBase.aggregateType (TestAggregate.base a) /\
                  event.AggregateID e
                  = AggregateBase.id (TestAggregate.base a))
             new.
Proof.
  intros commands a a'. subst a'.
  cbn [agg_Version agg_UncommittedEvents TestAggregate_Aggregate].
  unfold result, TestAggregate.onBase.
  cbn [fst AggregateBase.Version AggregateBase.UncommittedEvents gets].
  rewrite TestAggregate_handleAll_run.
  cbn [AggregateBase.version AggregateBase.uncommittedEvents].
  split; [reflexivity|]. eexists. split; [reflexivity|].
  apply eventsFor_shape.
Qed.

(** ** The second test aggregate, and what the handlers look at *)

Lemma TestAggregate2_HandleCommand_accepted_run (now : Time)
    (tc : TestCommand2) (a : TestAggregate2.t) :
  String.eqb (Content2 tc) "error" = false ->
  TestAggregate2.HandleCommand now (PtrTestCommand2 tc) a
  = (Returns None,
     {| TestAggregate2.base :=
          after (e <- AggregateBase.NewEvent now TestEventType
                        (TestEvent2Data (Content2 tc)) ;;
                 AggregateBase.StoreEvent e) (TestAggregate2.base a);
        TestAggregate2.dispatchedCommand := PtrTestCommand2 tc;
        TestAggregate2.appliedEvent := TestAggregate2.appliedEvent a;
        TestAggregate2.numHandled := GoInt.incr (TestAggregate2.numHandled a) |}).
Proof.
  intros Hacc. unfold TestAggregate2.HandleCommand, bind; cbn.
  rewrite Hacc. reflexivity.
Qed.

(** A [TestCommand2] whose content is not ["error"] gets no error from
    [TestAggregate2.HandleCommand]; one event is added at the end of the
    buffer, stamped with the type and ID of the aggregate and the version
    after the current one.  Its data is a [TestEvent2Data] with the content,
    while its event type is [TestEventType], the type of the first test
    event, and not [TestEvent2Type]. *)
Theorem TestAggregate2_HandleCommand_stores_event :
  forall (now : Time) (tc : TestCommand2) (a : TestAggregate2.t),
    rejects2 (PtrTestCommand2 tc) = false ->
    let a' := after (agg_HandleCommand now (PtrTestCommand2 tc)) a in
    result (agg_HandleCommand now (PtrTestCommand2 tc)) a = Returns None /\
    result agg_Version a' = result agg_Version a /\
    exists e : event.t,
      result agg_UncommittedEvents a'
      = (result agg_UncommittedEvents a ++ [EventOf e])%list /\
      event.EventType e = TestEventType /\
      event.EventType e <> TestEvent2Type /\
      event.Data e = TestEvent2Data (Content2 tc) /\
      typeOf (event.Data e) = Some TTestEvent2Data /\
      event.AggregateType e
      = AggregateBase.aggregateType (TestAggregate2.base a) /\
      event.AggregateID e = AggregateBase.id (TestAggregate2.base a) /\
      event.Version e = GoInt.add (result agg_Version a) 1.
Proof.
  intros now tc a Hacc a'. subst a'. cbn in Hacc.
  cbn [agg_HandleCommand agg_UncommittedEvents agg_Version
       TestAggregate2_Aggregate].
  unfold result, after.
  rewrite (TestAggregate2_HandleCommand_accepted_run now tc a Hacc).
  split; [reflexivity|]. split; [reflexivity|].
  eexists. split; [reflexivity|]. cbn.
  split; [reflexivity|]. split; [intros Hc; discriminate Hc|].
  repeat split.
Qed.

Lemma TestAggregate2_HandleCommand_stores_event_witness :
  let a := TestAggregate2.NewTestAggregate2 "a2" in
  let c := PtrTestCommand2 {| TestID2 := "a2"; Content2 := "command1" |} in
  result (agg_HandleCommand 1 c) a = Returns None /\
  exists e : event.t,
    result agg_UncommittedEvents (after (agg_HandleCommand 1 c) a)
    = [EventOf e] /\
    event.EventType e = TestEventType /\
    event.Data e = TestEvent2Data "command1".
Proof.
  intros a c.
  destruct (TestAggregate2_HandleCommand_stores_event 1
              {| TestID2 := "a2"; Content2 := "command1" |} a eq_refl)
    as (Hnil & _ & e & Hbuf & Hty & _ & Hd & _).
  split; [exact Hnil|]. exists e.
  split; [exact Hbuf|]. split; [exact Hty | exact Hd].
Defined.

(** A command that a test aggregate handles without an error is addressed
    to this kind of aggregate: its [AggregateType] and [CommandType] are the
    ones of the aggregate's own command.  The handlers never look at the ID
    of the command: with another ID in the command the error is the same and
    the base ends up the same, so that the stored event carries the ID of
    the aggregate that handled it, not the one the command names. *)
Theorem HandleCommand_routing :
  forall (now : Time) (c : Command),
    (forall a : TestAggregate.t,
        result (agg_HandleCommand now c) a = Returns None ->
        Command_AggregateType c = Some TestAggregateType /\
        Command_CommandType c = Some TestCommandType) /\
    (forall a : TestAggregate2.t,
        result (agg_HandleCommand now c) a = Returns None ->
        Command_AggregateType c = Some TestAggregate2Type /\
        Command_CommandType c = Some TestCommand2Type) /\
    (forall (a : TestAggregate.t) (tc : TestCommand) (other : UUID),
        let c' := PtrTestCommand {| TestID := other; Content := Content tc |} in
        result (agg_HandleCommand now c') a
        = result (agg_HandleCommand now (PtrTestCommand tc)) a /\
        TestAggregate.base (after (agg_HandleCommand now c') a)
        = TestAggregate.base (after (agg_HandleCommand now (PtrTestCommand tc)) a)) /\
    (forall (a : TestAggregate2.t) (tc : TestCommand2) (other : UUID),
        let c' := PtrTestCommand2 {| TestID2 := other; Content2 := Content2 tc |} in
        result (agg_HandleCommand now c') a
        = result (agg_HandleCommand now (PtrTestCommand2 tc)) a /\
        TestAggregate2.base (after (agg_HandleCommand now c') a)
        = TestAggregate2.base (after (agg_HandleCommand now (PtrTestCommand2 tc)) a)).
Proof.
  intros now c. cbn [agg_HandleCommand TestAggregate_Aggregate
                     TestAggregate2_Aggregate].
  split; [|split; [|split]].
  - intros a Hok. destruct (rejects c) eqn:Hrej.
    + unfold result in Hok.
      destruct (TestAggregate_HandleCommand_rejected now c a Hrej)
        as (r & Hrun & Hr & _).
      rewrite Hrun in Hok. contradiction.
    + destruct c as [|tc|tc|tc|tc| |]; try discriminate Hrej. split; reflexivity.
  - intros a Hok. destruct (rejects2 c) eqn:Hrej.
    + unfold result in Hok.
      destruct (TestAggregate2_HandleCommand_rejected now c a Hrej)
        as (r & Hrun & Hr & _).
      rewrite Hrun in Hok. contradiction.
    + destruct c as [|tc|tc|tc|tc| |]; try discriminate Hrej. split; reflexivity.
  - intros a tc other.
    unfold result, after, TestAggregate.HandleCommand, bind. cbn.
    destruct (String.eqb (Content tc) "error"); split; reflexivity.
  - intros a tc other.
    unfold result, after, TestAggregate2.HandleCommand, bind. cbn.
    destruct (String.eqb (Content2 tc) "error"); split; reflexivity.
Qed.

Lemma HandleCommand_routing_witness :
  let c := PtrTestCommand {| TestID := "someone else"; Content := "c" |} in
  Command_AggregateType c = Some TestAggregateType /\
  Command_CommandType c = Some TestCommandType /\
  Command_AggregateID c = Some "someone else" /\
  AggregateBase.uncommittedEvents
    (TestAggregate.base
       (after (agg_HandleCommand 1 c) (TestAggregate.NewTestAggregate "a1")))
  = AggregateBase.uncommittedEvents
      (TestAggregate.base
         (after (agg_HandleCommand 1
                   (PtrTestCommand {| TestID := "a1"; Content := "c" |}))
            (TestAggregate.NewTestAggregate "a1"))).
Proof.
  intros c.
  destruct (HandleCommand_routing 1 c) as (Hroute & _ & Hid & _).
  destruct (Hroute (TestAggregate.NewTestAggregate "a1") eq_refl) as [Hty Hct].
  split; [exact Hty|]. split; [exact Hct|]. split; [reflexivity|].
  destruct (Hid (TestAggregate.NewTestAggregate "a1")
              {| TestID := "a1"; Content := "c" |} "someone else") as [_ Hbase].
  exact (f_equal AggregateBase.uncommittedEvents Hbase).
Defined.

(** ** The mock event store *)

Lemma appendEach_run (events : list Event) (m : MockEventStore.t) :
  MockEventStore.appendEach events m
  = (tt, {| MockEventStore.Events := (MockEventStore.Events m ++ events)%list;
            MockEventStore.Loaded := MockEventStore.Loaded m;
            MockEventStore.err := MockEventStore.err m |}).
Proof.
  revert m. induction events as [|e rest IH]; intros m.
  - cbn. rewrite app_nil_r. destruct m; reflexivity.
  - cbn [MockEventStore.appendEach]. unfold bind, modify. rewrite IH. cbn.
    now rewrite <- app_assoc.
Qed.

Lemma MockEventStore_Save_run (events : list Event) (originalVersion : Z)
    (m : MockEventStore.t) :
  MockEventStore.Save events originalVersion m
  = match MockEventStore.err m with
    | Some e => (Some e, m)
    | None =>
        (None,
         {| MockEventStore.Events := (MockEventStore.Events m ++ events)%list;
            MockEventStore.Loaded := MockEventStore.Loaded m;
            MockEventStore.err := None |})
    end.
Proof.
  unfold MockEventStore.Save, bind, gets.
  destruct (MockEventStore.err m) eqn:Herr; [reflexivity|].
  rewrite appendEach_run, Herr. reflexivity.
Qed.

(** A store that is not set to fail accepts every batch, whatever the
    original version it is given: the events go to the end of the stream in
    their order, and nothing else changes.  [Load] then returns the whole
    stream, the older events followed by the batch, whatever aggregate type
    and ID it is asked for, and records the ID it was asked for. *)
Theorem MockEventStore_Save_then_Load :
  forall (m : MockEventStore.t) (events : list Event) (originalVersion : Z)
         (aggregateType : AggregateType) (id : UUID),
    MockEventStore.err m = None ->
    let m' := after (MockEventStore.Save events originalVersion) m in
    let m'' := after (MockEventStore.Load aggregateType id) m' in
    result (MockEventStore.Save events originalVersion) m = None /\
    MockEventStore.Events m' = (MockEventStore.Events m ++ events)%list /\
    MockEventStore.Loaded m' = MockEventStore.Loaded m /\
    MockEventStore.err m' = None /\
    result (MockEventStore.Load aggregateType id) m'
    = ((MockEventStore.Events m ++ events)%list, None) /\
    MockEventStore.Loaded m'' = id /\
    MockEventStore.Events m'' = MockEventStore.Events m'.
Proof.
  intros m events v ty id Herr m' m''. subst m'' m'.
  unfold result, after. rewrite MockEventStore_Save_run, Herr.
  repeat split.
Qed.

Lemma MockEventStore_Save_then_Load_witness :
  let m := {| MockEventStore.Events := [nilEvent];
              MockEventStore.Loaded := "";
              MockEventStore.err := None |} in
  let e := NewEvent 1 TestEventType (TestEventData "event1") in
  result (MockEventStore.Load TestAggregate2Type "a2")
    (after (MockEventStore.Save [e; e] 41) m)
  = ([nilEvent; e; e], None).
Proof.
  intros m e.
  destruct (MockEventStore_Save_then_Load m [e; e] 41 TestAggregate2Type "a2"
              eq_refl) as (_ & _ & _ & _ & Hload & _).
  exact Hload.
Defined.

(** A store that is set to fail returns its error from [Save] and from
    [Load], with no events from [Load], and stays as it is: no event is
    added, and the ID that was asked for is not recorded. *)
Theorem MockEventStore_failing :
  forall (m : MockEventStore.t) (e : error) (events : list Event)
         (originalVersion : Z) (aggregateType : AggregateType) (id : UUID),
    MockEventStore.err m = Some e ->
    MockEventStore.Save events originalVersion m = (Some e, m) /\
    MockEventStore.Load aggregateType id m = (([], Some e), m).
Proof.
  intros m e events v ty id Herr.
  rewrite MockEventStore_Save_run, Herr. split; [reflexivity|].
  unfold MockEventStore.Load, bind, gets. rewrite Herr. reflexivity.
Qed.

Lemma MockEventStore_failing_witness :
  let m := {| MockEventStore.Events := [nilEvent];
              MockEventStore.Loaded := "a1";
              MockEventStore.err := Some (errors_New "store error") |} in
  MockEventStore.Save [nilEvent; nilEvent] 1 m
  = (Some (errors_New "store error"), m) /\
  MockEventStore.Load TestAggregateType "a2" m
  = (([], Some (errors_New "store error")), m).
Proof.
  intros m.
  exact (MockEventStore_failing m (errors_New "store error")
           [nilEvent; nilEvent] 1 TestAggregateType "a2" eq_refl).
Defined.

(** Two batches saved one after the other leave the store as one save of
    the two batches joined does, whatever original versions are given. *)
Theorem MockEventStore_Save_twice :
  forall (m : MockEventStore.t) (events1 events2 : list Event)
         (v1 v2 v : Z),
    after (MockEventStore.Save events1 v1 ;; MockEventStore.Save events2 v2) m
    = after (MockEventStore.Save (events1 ++ events2) v) m /\
    result (MockEventStore.Save events1 v1 ;; MockEventStore.Save events2 v2) m
    = result (MockEventStore.Save (events1 ++ events2) v) m.
Proof.
  intros m events1 events2 v1 v2 v.
  unfold result, after, bind.
  rewrite (MockEventStore_Save_run events1), (MockEventStore_Save_run (events1 ++ events2)).
  destruct (MockEventStore.err m) eqn:Herr.
  - rewrite MockEventStore_Save_run, Herr. split; reflexivity.
  - rewrite MockEventStore_Save_run. cbn. rewrite app_assoc. split; reflexivity.
Qed.

(** ** The mock event bus *)

(** The mock bus keeps the events published on it, in the order they were
    published; adding handlers or observers and choosing a strategy, at any
    point, changes nothing. *)
Theorem MockEventBus_records_published :
  forall (H O S : Type) (cs : list (busCall H O S)) (m : MockEventBus.t),
    MockEventBus.Events (after (busPerformAll cs) m)
    = (MockEventBus.Events m ++ published cs)%list.
Proof.
  intros H O S cs. induction cs as [|c rest IH]; intros m.
  - cbn. now rewrite app_nil_r.
  - cbn [busPerformAll]. rewrite after_bind, IH.
    destruct c; cbn; [now rewrite <- app_assoc| reflexivity ..].
Qed.

(** ** The mock repository *)

(** An aggregate saved in a repository whose map was made is found again
    under its own ID: [Load] returns the pointer that was saved, whatever
    aggregate type it is asked for and whatever the map held under this ID
    before; what is stored under other IDs is still there. *)
Theorem MockRepository_Save_then_Load :
  forall (heap : gmap loc object) (l : loc) (o : object)
         (m : MockRepository.t) (aggregates : gmap string AggregatePtr)
         (aggregateType : AggregateType),
    heap !! l = Some o ->
    MockRepository.Aggregates m = Some aggregates ->
    let m' := after (MockRepository.Save heap (PtrAggregate l)) m in
    result (MockRepository.Save heap (PtrAggregate l)) m = Returns None /\
    result (MockRepository.Load aggregateType (object_AggregateID o)) m'
    = (PtrAggregate l, None) /\
    forall id : UUID,
      id <> object_AggregateID o ->
      result (MockRepository.Load aggregateType id) m'
      = result (MockRepository.Load aggregateType id) m.
Proof.
  intros heap l o m aggregates ty Hobj Hmap m'. subst m'.
  unfold result, after, MockRepository.Save, MockRepository.Load.
  rewrite Hobj, Hmap. cbn [fst snd MockRepository.Aggregates].
  split; [reflexivity|]. split.
  - now rewrite lookup_insert_eq.
  - intros id Hne. now rewrite lookup_insert_ne by congruence.
Qed.

Lemma MockRepository_Save_then_Load_witness :
  let heap : gmap loc object :=
    {[ 1%positive := ObjTestAggregate (TestAggregate.NewTestAggregate "a1") ]} in
  let m := {| MockRepository.Aggregates := Some ∅ |} in
  result (MockRepository.Load TestAggregate2Type "a1")
    (after (MockRepository.Save heap (PtrAggregate 1%positive)) m)
  = (PtrAggregate 1%positive, None).
Proof.
  intros heap m.
  destruct (MockRepository_Save_then_Load heap 1%positive
              (ObjTestAggregate (TestAggregate.NewTestAggregate "a1"))
              m ∅ TestAggregate2Type)
    as (_ & Hload & _).
  - apply lookup_singleton_eq.
  - reflexivity.
  - exact Hload.
Defined.

(** [Load] on the mock repository never returns an error and never changes
    the repository; for an ID that is not in the map, and on a repository
    whose map was never made, it returns the nil aggregate.  [Save] of the
    nil aggregate panics, as does [Save] into a repository whose map was
    never made, and a [Save] that panics leaves the repository as it was. *)
Theorem MockRepository_edges :
  forall (heap : gmap loc object) (m : MockRepository.t)
         (aggregateType : AggregateType) (id : UUID) (aggregate : AggregatePtr),
    snd (result (MockRepository.Load aggregateType id) m) = None /\
    after (MockRepository.Load aggregateType id) m = m /\
    (MockRepository.Aggregates m = None ->
     result (MockRepository.Load aggregateType id) m = (nilAggregate, None) /\
     exists p : string,
       result (MockRepository.Save heap aggregate) m = Panics p) /\
    (forall aggregates : gmap string AggregatePtr,
        MockRepository.Aggregates m = Some aggregates ->
        aggregates !! id = None ->
        result (MockRepository.Load aggregateType id) m = (nilAggregate, None)) /\
    result (MockRepository.Save heap nilAggregate) m
    = Panics panicNilDereference /\
    (forall p : string,
        result (MockRepository.Save heap aggregate) m = Panics p ->
        after (MockRepository.Save heap aggregate) m = m).
Proof.
  intros heap m ty id aggregate.
  unfold result, after, MockRepository.Load, MockRepository.Save. cbn [fst snd].
  split; [reflexivity|]. split; [reflexivity|]. split; [|split; [|split]].
  - intros Hnil. rewrite Hnil. split; [reflexivity|].
    destruct aggregate as [|l]; [eexists; reflexivity|].
    destruct (heap !! l); eexists; reflexivity.
  - intros aggregates Hmap Hnone. now rewrite Hmap, Hnone.
  - reflexivity.
  - intros p. destruct aggregate as [|l]; [reflexivity|].
    destruct (heap !! l); [|reflexivity].
    destruct (MockRepository.Aggregates m); [discriminate|reflexivity].
Qed.

Lemma MockRepository_edges_witness :
  let m := {| MockRepository.Aggregates := None |} in
  result (MockRepository.Load TestAggregateType "a1") m = (nilAggregate, None) /\
  result (MockRepository.Load TestAggregateType "a1")
    {| MockRepository.Aggregates := Some ∅ |} = (nilAggregate, None).
Proof.
  intros m.
  destruct (MockRepository_edges ∅ m TestAggregateType "a1" nilAggregate)
    as (_ & _ & Hnil & _).
  destruct (MockRepository_edges ∅ {| MockRepository.Aggregates := Some ∅ |}
              TestAggregateType "a1" nilAggregate)
    as (_ & _ & _ & Hmissing & _).
  split.
  - destruct (Hnil eq_refl) as [Hload _]. exact Hload.
  - apply (Hmissing ∅ eq_refl). apply lookup_empty.
Defined.

(** ** From the buffer to the store and back *)

(** The events a fresh [TestAggregate] has buffered for a list of commands,
    saved in an empty mock store, loaded again and applied to a fresh
    aggregate, bring the version to the number of commands that were not
    turned down, while each of these events carries version 1 (for a number
    that fits an [int]). *)
Theorem TestAggregate_replay_through_store :
  forall (id : UUID) (commands : list (Time * Command)),
    Z.of_nat (length (List.filter (fun nc => negb (rejects (snd nc))) commands))
    <= GoInt.max_int ->
    let a := after (handleAll commands) (TestAggregate.NewTestAggregate id) in
    let store :=
      after (MockEventStore.Save (result agg_UncommittedEvents a)
               (result agg_Version a))
        {| MockEventStore.Events := [];
           MockEventStore.Loaded := "";
           MockEventStore.err := None |} in
    let loaded := fst (result (MockEventStore.Load TestAggregateType id) store) in
    let replayed := after (applyAll loaded) (TestAggregate.NewTestAggregate id) in
    result (MockEventStore.Save (result agg_UncommittedEvents a)
              (result agg_Version a))
      {| MockEventStore.Events := [];
         MockEventStore.Loaded := "";
         MockEventStore.err := None |} = None /\
    loaded = result agg_UncommittedEvents a /\
    result agg_Version replayed
    = Z.of_nat (length (List.filter (fun nc => negb (rejects (snd nc)))
                          commands)) /\
    Forall (fun ev => exists e : event.t,
                ev = EventOf e /\ event.Version e = 1 /\
                event.AggregateID e = id)
           loaded.
Proof.
  intros id commands Hlen a store loaded replayed.
  assert (Hbuf : result agg_UncommittedEvents a
                 = eventsFor TestAggregateType id 0 commands).
  { subst a. cbn [agg_UncommittedEvents TestAggregate_Aggregate].
    unfold result, TestAggregate.onBase.
    cbn [fst AggregateBase.UncommittedEvents gets].
    rewrite TestAggregate_handleAll_run. reflexivity. }
  assert (Hloaded : loaded = result agg_UncommittedEvents a).
  { subst loaded store. unfold result, after.
    rewrite MockEventStore_Save_run. reflexivity. }
  destruct (eventsFor_shape TestAggregateType id 0 commands) as [Hcount Hall].
  split; [unfold result; rewrite MockEventStore_Save_run; reflexivity|].
  split; [exact Hloaded|]. split.
  - subst replayed.
    rewrite (version_counts_applied TestAggregate_increments_version).
    + rewrite Hloaded, Hbuf, Hcount. cbn. lia.
    + cbn. lia.
    + rewrite Hloaded, Hbuf, Hcount. cbn. lia.
  - rewrite Hloaded, Hbuf.
    eapply Forall_impl; [exact Hall|].
    intros ev (e & -> & Hv & _ & Hid). exists e. repeat split; assumption.
Qed.

Lemma TestAggregate_replay_through_store_witness :
  let commands :=
    [(1, PtrTestCommand {| TestID := "a1"; Content := "command1" |});
     (2, PtrTestCommand {| TestID := "a1"; Content := "error" |});
     (3, PtrTestCommand {| TestID := "a1"; Content := "command2" |})] in
  let a := after (handleAll commands) (TestAggregate.NewTestAggregate "a1") in
  let store :=
    after (MockEventStore.Save (result agg_UncommittedEvents a)
             (result agg_Version a))
      {| MockEventStore.Events := [];
         MockEventStore.Loaded := "";
         MockEventStore.err := None |} in
  let loaded := fst (result (MockEventStore.Load TestAggregateType "a1") store) in
  result agg_Version
    (after (applyAll loaded) (TestAggregate.NewTestAggregate "a1")) = 2.
Proof.
  intros commands a store loaded.
  destruct (TestAggregate_replay_through_store "a1" commands)
    as (_ & _ & Hversion & _).
  - intros Hc; discriminate Hc.
  - exact Hversion.
Defined.

(** ** Nil pointers as commands *)

(** [HandleCommand] of a test aggregate panics on one command only, the nil
    pointer of the pointer type its switch has a case for: the panic is the
    nil dereference, and it comes after the command was recorded and counted,
    with the base and the applied event left as they were.  The nil pointer
    of the other pointer type is turned down with an error like any command
    of a type that is not handled. *)
Theorem HandleCommand_panics_on_nil_pointer :
  forall (now : Time) (c : Command),
    (forall a : TestAggregate.t,
        let a' := after (agg_HandleCommand now c) a in
        ((exists p : string, result (agg_HandleCommand now c) a = Panics p)
         <-> panics c = true) /\
        (panics c = true ->
         result (agg_HandleCommand now c) a = Panics panicNilDereference /\
         TestAggregate.base a' = TestAggregate.base a /\
         TestAggregate.appliedEvent a' = TestAggregate.appliedEvent a /\
         TestAggregate.dispatchedCommand a' = c /\
         TestAggregate.numHandled a'
         = GoInt.incr (TestAggregate.numHandled a)) /\
        (panics2 c = true ->
         result (agg_HandleCommand now c) a
         = Returns (Some (errors_New "couldn't handle command")))) /\
    (forall a : TestAggregate2.t,
        let a' := after (agg_HandleCommand now c) a in
        ((exists p : string, result (agg_HandleCommand now c) a = Panics p)
         <-> panics2 c = true) /\
        (panics2 c = true ->
         result (agg_HandleCommand now c) a = Panics panicNilDereference /\
         TestAggregate2.base a' = TestAggregate2.base a /\
         TestAggregate2.appliedEvent a' = TestAggregate2.appliedEvent a /\
         TestAggregate2.dispatchedCommand a' = c /\
         TestAggregate2.numHandled a'
         = GoInt.incr (TestAggregate2.numHandled a)) /\
        (panics c = true ->
         result (agg_HandleCommand now c) a
         = Returns (Some (errors_New "couldn't handle command")))).
Proof.
  intros now c.
  cbn [agg_HandleCommand TestAggregate_Aggregate TestAggregate2_Aggregate].
  split; intros a; cbn zeta; unfold result, after.
  - destruct c as [|tc|tc|tc|tc| |]; cbn [panics panics2];
      try (split; [split; [intros [p Hp]; discriminate Hp | discriminate]|];
           split; [discriminate|]; first [discriminate | reflexivity]).
    + unfold TestAggregate.HandleCommand, bind; cbn.
      destruct (String.eqb (Content tc) "error"); cbn;
        (split; [split; [intros [p Hp]; discriminate Hp | discriminate]|];
         split; discriminate).
    + split; [split; [reflexivity | intros _; eexists; reflexivity]|].
      split; [intros _; repeat split | discriminate].
  - destruct c as [|tc|tc|tc|tc| |]; cbn [panics panics2];
      try (split; [split; [intros [p Hp]; discriminate Hp | discriminate]|];
           split; [discriminate|]; first [discriminate | reflexivity]).
    + unfold TestAggregate2.HandleCommand, bind; cbn.
      destruct (String.eqb (Content2 tc) "error"); cbn;
        (split; [split; [intros [p Hp]; discriminate Hp | discriminate]|];
         split; discriminate).
    + split; [split; [reflexivity | intros _; eexists; reflexivity]|].
      split; [intros _; repeat split | discriminate].
Qed.

Lemma HandleCommand_panics_on_nil_pointer_witness :
  let a := TestAggregate.NewTestAggregate "a1" in
  result (agg_HandleCommand 1 NilPtrTestCommand) a
  = Panics panicNilDereference /\
  TestAggregate.numHandled (after (agg_HandleCommand 1 NilPtrTestCommand) a) = 1 /\
  result (agg_HandleCommand 1 NilPtrTestCommand2) a
  = Returns (Some (errors_New "couldn't handle command")).
Proof.
  intros a.
  destruct (HandleCommand_panics_on_nil_pointer 1 NilPtrTestCommand) as [H1 _].
  destruct (H1 a) as (_ & Hpanic & _).
  destruct (Hpanic eq_refl) as (Hres & _ & _ & _ & Hnum).
  destruct (HandleCommand_panics_on_nil_pointer 1 NilPtrTestCommand2) as [H2 _].
  destruct (H2 a) as (_ & _ & Hother).
  split; [exact Hres|]. split; [exact Hnum | exact (Hother eq_refl)].
Defined.
